(** * Real-estate voice bot: turn handling of the telephony webhooks

    A shallow embedding of the conversation logic of

    - [app/voice2.py]         ([OptimizedVoiceAssistant]),
    - [app/property_rag.py]   ([RealEstateRAG]),
    - [app/main.py]           (the FastAPI webhook: sessions, [/voice], [/process]),
    - [app/twilio_webhook.py] (the Flask webhook: [ReliableVoiceAssistant], [/process]),

    followed by the properties of the specification, each stated and
    proved on the embedding.

    Modelling conventions.
    - A Python [str] is a [string]; the text is taken to be ASCII, one
      character per code point, so [str.lower], [str.strip] and
      [str.split] are their ASCII versions and [len] is [String.length].
    - Python's unbounded [int] is [Z]; a [float] is a binary64 [float].
    - An object that is mutated through a reference (the per-call bot)
      lives in an object store indexed by references; a dictionary is a
      [gmap].
    - A handler is a computation over the module's globals and the TwiML
      document it is building, which returns or raises; logging and the
      reading of the clock for log lines are left out.
    - What a call handed to the executor does under [asyncio.wait_for] is
      not decided by the program: it is an [outcome] given by the
      environment.  The Redis server, when configured, answers every
      call; the expiry of its keys is not modelled. *)

From Stdlib Require Import ZArith String Ascii List Bool Lia Floats DecimalString.
From stdpp Require Import gmap strings.

Local Open Scope string_scope.
Local Open Scope Z_scope.

(* ===================================================================== *)
(** * Python built-ins used by the sources *)
(* ===================================================================== *)

Module Py.

(** ** Exceptions and results *)

Inductive exn : Type :=
| ZeroDivisionError
| IndexError
| KeyError
| CollaboratorError.   (* any [Exception] raised inside a collaborator *)

Inductive result (A : Type) : Type :=
| Ok (a : A)
| Raise (e : exn).
Arguments Ok {A} a.
Arguments Raise {A} e.

(** ** Characters *)

Definition is_upper (c : ascii) : bool :=
  let n := nat_of_ascii c in (65 <=? n)%nat && (n <=? 90)%nat.

Definition lower_char (c : ascii) : ascii :=
  if is_upper c then ascii_of_nat (nat_of_ascii c + 32) else c.

(** The ASCII characters for which [str.isspace] holds: tab, line feed,
    vertical tab, form feed, carriage return, the four separators
    [0x1c..0x1f] and the space. *)
Definition is_space (c : ascii) : bool :=
  let n := nat_of_ascii c in
  ((9 <=? n)%nat && (n <=? 13)%nat) || ((28 <=? n)%nat && (n <=? 32)%nat).

(** ** [str] methods *)

(** [s.lower()] *)
Fixpoint lower (s : string) : string :=
  match s with
  | EmptyString => EmptyString
  | String c s' => String (lower_char c) (lower s')
  end.

(** [s.lstrip()], [s.rstrip()], [s.strip()] *)
Fixpoint lstrip (s : string) : string :=
  match s with
  | EmptyString => EmptyString
  | String c s' => if is_space c then lstrip s' else s
  end.

Fixpoint rstrip (s : string) : string :=
  match s with
  | EmptyString => EmptyString
  | String c s' =>
      match rstrip s' with
      | EmptyString => if is_space c then EmptyString else String c EmptyString
      | r => String c r
      end
  end.

Definition strip (s : string) : string := rstrip (lstrip s).

(** [bool(s)]: a string is truthy when it is not empty. *)
Definition truthy (s : string) : bool :=
  match s with EmptyString => false | String _ _ => true end.

(** [w in s] for strings: [w] occurs in [s] as a contiguous substring. *)
Fixpoint contains (w s : string) : bool :=
  String.prefix w s ||
  match s with
  | EmptyString => false
  | String _ s' => contains w s'
  end.

(** [any(w in s for w in words)] *)
Definition any_in (words : list string) (s : string) : bool :=
  existsb (fun w => contains w s) words.

(** [s[:n]] for [0 <= n]. *)
Fixpoint take (n : nat) (s : string) : string :=
  match n, s with
  | S k, String c s' => String c (take k s')
  | _, _ => EmptyString
  end.

(** [s.replace(old, new)]: every non-overlapping occurrence of [old], from
    the left.  [skip] counts the characters of a matched occurrence that
    are still to be dropped. *)
Fixpoint replace_from (old new : string) (skip : nat) (s : string) : string :=
  match s with
  | EmptyString =>
      match skip, old with
      | O, EmptyString => new
      | _, _ => EmptyString
      end
  | String c s' =>
      match skip with
      | S k => replace_from old new k s'
      | O =>
          if String.prefix old s then
            new ++ match String.length old with
                   | O => String c (replace_from old new O s')
                   | S k => replace_from old new k s'
                   end
          else String c (replace_from old new O s')
      end
  end.

Definition replace (old new s : string) : string := replace_from old new 0 s.

(** [s.split()]: the maximal runs of non-space characters.  [split_run s]
    is the run [s] starts with (empty when [s] starts with a space) and the
    words after that run. *)
Definition push_word (w : string) (ws : list string) : list string :=
  match w with
  | EmptyString => ws
  | _ => w :: ws
  end.

Fixpoint split_run (s : string) : string * list string :=
  match s with
  | EmptyString => (EmptyString, [])
  | String c s' =>
      let (w, ws) := split_run s' in
      if is_space c then (EmptyString, push_word w ws) else (String c w, ws)
  end.

Definition split (s : string) : list string :=
  let (w, ws) := split_run s in push_word w ws.

(** [s.split(sep)] for a one-character separator. *)
Fixpoint split_on (sep : ascii) (s : string) : list string :=
  match s with
  | EmptyString => [EmptyString]
  | String c s' =>
      let r := split_on sep s' in
      if Ascii.eqb c sep then EmptyString :: r
      else match r with
           | w :: ws => String c w :: ws
           | [] => [String c EmptyString]
           end
  end.

(** [l[i]] on a list. *)
Definition index {A} (l : list A) (i : Z) : result A :=
  let n := Z.of_nat (List.length l) in
  let j := if i <? 0 then i + n else i in
  if (j <? 0) || (n <=? j) then Raise IndexError
  else match nth_error l (Z.to_nat j) with
       | Some x => Ok x
       | None => Raise IndexError
       end.

(** [sep.join(parts)] *)
Fixpoint join (sep : string) (parts : list string) : string :=
  match parts with
  | [] => EmptyString
  | [p] => p
  | p :: ps => p ++ sep ++ join sep ps
  end.

(** ** Numbers *)

(** [str(n)] for [0 <= n]. *)
Definition digits (n : Z) : string :=
  NilZero.string_of_uint (N.to_uint (Z.to_N n)).

(** The thousands separators of the [,] format option: a comma before
    every character whose distance to the end is a positive multiple of
    three, the first character apart. *)
Fixpoint group_from (first : bool) (s : string) : string :=
  match s with
  | EmptyString => EmptyString
  | String c s' =>
      let sep := negb first && (Nat.eqb (Nat.modulo (String.length s) 3) 0) in
      (if sep then "," else "") ++ String c (group_from false s')
  end.

(** [f"{n:,}"] for an [int]. *)
Definition format_int_grouped (n : Z) : string :=
  (if n <? 0 then "-" else "") ++ group_from true (digits (Z.abs n)).

(** [str(n)] for an [int]. *)
Definition str_int (n : Z) : string :=
  (if n <? 0 then "-" else "") ++ digits (Z.abs n).

(** [float(n)]: exact for [|n| < 2^53]. *)
Definition float_of_int (n : Z) : float :=
  if n <? 0 then PrimFloat.opp (PrimFloat.of_uint63 (Uint63.of_Z (- n)))
  else PrimFloat.of_uint63 (Uint63.of_Z n).

(** [a / b] on [int]s: true division. *)
Definition truediv (a b : Z) : result float :=
  if b =? 0 then Raise ZeroDivisionError
  else Ok (PrimFloat.div (float_of_int a) (float_of_int b)).

(** [num / den] rounded to the nearest integer, ties to the even one
    ([0 <= num], [0 < den]). *)
Definition round_half_even (num den : Z) : Z :=
  let q := num / den in
  let r := num mod den in
  if 2 * r <? den then q
  else if den <? 2 * r then q + 1
  else if Z.even q then q else q + 1.

Fixpoint zeros (n : nat) : string :=
  match n with
  | O => EmptyString
  | S k => String "0"%char (zeros k)
  end.

(** [f"{x:.<d>f}"] for a [float]: the exact binary value of [x], rounded
    half-even to [d] decimals. *)
Definition format_fixed (d : nat) (x : float) : string :=
  let sign (s : bool) := if s then "-" else "" in
  let frac (f : string) :=
    match d with
    | O => EmptyString
    | _ => "." ++ zeros (d - String.length f) ++ f
    end in
  match Prim2SF x with
  | S754_nan => "nan"
  | S754_infinity s => sign s ++ "inf"
  | S754_zero s => sign s ++ "0" ++ frac EmptyString
  | S754_finite s m e =>
      let scale := 10 ^ Z.of_nat d in
      let n :=
        if 0 <=? e then Z.pos m * 2 ^ e * scale
        else round_half_even (Z.pos m * scale) (2 ^ (- e)) in
      sign s ++ digits (n / scale) ++ frac (digits (n mod scale))
  end.

End Py.
Import Py.

(* ===================================================================== *)
(** * TwiML documents ([twilio.twiml.voice_response]) *)
(* ===================================================================== *)

Module Twiml.

(** The verbs the handlers emit.  A [Gather] carries its attributes and
    the [(text, voice)] pairs said inside it. *)
Inductive Verb : Type :=
| Say (text voice : string)
| Gather (input action : string) (timeout : Z) (speechTimeout : option string)
         (nested : list (string * string))
| Hangup.

(** A [VoiceResponse] is the sequence of its verbs; the handlers return it
    rendered as XML. *)
Definition VoiceResponse : Type := list Verb.

Definition is_gather (v : Verb) : bool :=
  match v with Gather _ _ _ _ _ => true | _ => false end.

Definition is_hangup (v : Verb) : bool :=
  match v with Hangup => true | _ => false end.

(** The call goes on after this document iff it asks for more speech. *)
Definition continuation (r : VoiceResponse) : bool := existsb is_gather r.

Definition ends_call (r : VoiceResponse) : bool := existsb is_hangup r.

End Twiml.
Import Twiml.

(* ===================================================================== *)
(** * Handlers: state, exceptions, [try]/[except] *)
(* ===================================================================== *)

Module Exec.

Section Monad.
Context {S : Type}.

(** A computation over a state [S] that returns or raises; what it did to
    the state before raising stays done. *)
Definition M (A : Type) : Type := S -> result A * S.

Definition ret {A} (a : A) : M A := fun s => (Ok a, s).

Definition raise {A} (e : exn) : M A := fun s => (Raise e, s).

Definition bind {A B} (m : M A) (k : A -> M B) : M B :=
  fun s =>
    match m s with
    | (Ok a, s') => k a s'
    | (Raise e, s') => (Raise e, s')
    end.

(** [try: body  except Exception: handler] *)
Definition try_except {A} (body : M A) (handler : exn -> M A) : M A :=
  fun s =>
    match body s with
    | (Ok a, s') => (Ok a, s')
    | (Raise e, s') => handler e s'
    end.

Definition get : M S := fun s => (Ok s, s).
Definition put (s : S) : M unit := fun _ => (Ok tt, s).
Definition modify (f : S -> S) : M unit := fun s => (Ok tt, f s).

Definition lift_result {A} (r : result A) : M A := fun s => (r, s).

End Monad.

Arguments M : clear implicits.

End Exec.
Import Exec.

Notation "'let*' x ':=' m 'in' k" := (bind m (fun x => k))
  (at level 10, x name, m at level 100, k at level 200).
Notation "'do' m 'then' k" := (bind m (fun _ => k))
  (at level 10, m at level 100, k at level 200).

(* ===================================================================== *)
(** * A webhook handler: globals and the response under construction *)
(* ===================================================================== *)

Module Handler.

Section Frame.
Context {G : Type}.

(** The state of a handler: the module's globals and the [VoiceResponse]
    held by its local [resp]. *)
Record Frame : Type := {
  globals : G;
  resp : VoiceResponse;
}.

Definition on_globals {A} (m : M G A) : M Frame A :=
  fun f =>
    let (r, g) := m (globals f) in
    (r, {| globals := g; resp := resp f |}).

(** Runs a handler against the globals. *)
Definition run {A} (m : M Frame A) (g : G) : result A * G :=
  let (r, f) := m {| globals := g; resp := [] |} in (r, globals f).

(** [resp = VoiceResponse()] *)
Definition new_response : M Frame unit :=
  modify (fun f => {| globals := globals f; resp := [] |}).

(** [resp.append(v)] *)
Definition append (v : Verb) : M Frame unit :=
  modify (fun f => {| globals := globals f; resp := (resp f ++ [v])%list |}).

(** [resp.say(text, voice=voice)] *)
Definition say (text voice : string) : M Frame unit := append (Say text voice).

(** [resp.hangup()] *)
Definition hangup : M Frame unit := append Hangup.

(** [return Response(str(resp), ...)] *)
Definition respond : M Frame VoiceResponse :=
  let* f := get in ret (resp f).

End Frame.

Arguments Frame : clear implicits.

End Handler.
Import Handler.

(* ===================================================================== *)
(** * app/voice2.py *)
(* ===================================================================== *)

Module Voice2.

(** The [client_data] dictionary of the constructor, by key. *)
Record ClientData : Type := {
  name : string;
  location : string;
  purchase_year : Z;
  bought_price : Z;
  current_price : Z;
}.

Record OptimizedVoiceAssistant : Type := {
  call_sid : string;
  confirm_count : Z;
  reject_count : Z;
  client_data : ClientData;
}.

(** [OptimizedVoiceAssistant.__init__] *)
Definition init (sid : string) : OptimizedVoiceAssistant :=
  {| call_sid := sid;
     confirm_count := 0;
     reject_count := 0;
     client_data :=
       {| name := "Client";
          location := "Dubai";
          purchase_year := 2018;
          bought_price := 1000000;
          current_price := 1400000 |} |}.

Definition confirm_words : list string :=
  ["yes"; "okay"; "interested"; "sure"; "agree"].

Definition reject_words : list string :=
  ["no"; "not interested"; "stop"; "never"; "leave me"].

(** [handle_intents]; it reads nothing of [self]. *)
Definition handle_intents (text : string) : string :=
  let text := lower text in
  if any_in confirm_words text then "strong_confirm"
  else if any_in reject_words text then "strong_reject"
  else "neutral".

(** [generate_fast_response] *)
Definition generate_fast_response
    (self : OptimizedVoiceAssistant) (user_input intent : string) : string :=
  if String.eqb intent "neutral" then
    "Thanks for sharing. Could you tell me more about your preferences in "
      ++ location (client_data self) ++ "?"
  else if String.eqb intent "strong_confirm" then
    "Perfect. I’ll prepare the next steps right away."
  else if String.eqb intent "strong_reject" then
    "Understood. I’ll close this discussion."
  else "I see. Let's continue our conversation.".

End Voice2.

(* ===================================================================== *)
(** * app/property_rag.py *)
(* ===================================================================== *)

Module PropertyRag.

(** [embeddings] is [None] ([false]) without a usable API key. *)
Record RealEstateRAG : Type := { embeddings : bool }.

(** [RealEstateRAG.__init__]: [api_key] is [GOOGLE_API_KEY]; [client_ok]
    tells whether constructing the embeddings client succeeded. *)
Definition init (api_key : option string) (client_ok : bool) : RealEstateRAG :=
  match api_key with
  | Some k => if truthy k then {| embeddings := client_ok |}
              else {| embeddings := false |}
  | None => {| embeddings := false |}
  end.

(** [query_knowledge_base] *)
Definition query_knowledge_base (self : RealEstateRAG) (query : string) (k : Z)
  : string :=
  if negb (embeddings self) then
    "Based on Dubai market trends, properties have shown steady ROI growth."
  else "Real RAG search results would be returned here.".

End PropertyRag.

(* ===================================================================== *)
(** * app/main.py *)
(* ===================================================================== *)

Module Main.
Import Voice2 PropertyRag.

(** ** Configuration and module globals *)

Record Config : Type := {
  REDIS_URL : option string;
  REDIS_AVAILABLE : bool;
}.

(** [REDIS_URL and REDIS_AVAILABLE] *)
Definition redis_on (cfg : Config) : bool :=
  match REDIS_URL cfg with
  | Some url => truthy url && REDIS_AVAILABLE cfg
  | None => false
  end.

Definition FALLBACK_REPLY : string :=
  "I'm still pulling up the latest details. Could you share a bit more while I check?".

(** A session dictionary [{"bot": ..., "start_time": ...}]; [bot] is a
    reference into [objects]. *)
Record Session : Type := {
  bot : nat;
  start_time : Z;
}.

(** The module's mutable globals.  [redis] is the content of the Redis
    server: the [created] field of each live hash key (its calls are taken
    to succeed, and the expiry of a key is outside the model).  [objects]
    holds the bot objects; an object is never reclaimed in the model, so
    what a handler did to a bot stays visible after its session is gone. *)
Record Globals : Type := {
  _sessions : gmap string Session;
  redis : gmap string Z;
  objects : gmap nat OptimizedVoiceAssistant;
  next_ref : nat;
}.

Definition empty_globals : Globals :=
  {| _sessions := ∅; redis := ∅; objects := ∅; next_ref := 0 |}.

(** ** Helper functions *)

Definition redis_key (call_sid : string) : string := "call:" ++ call_sid.

Definition get_session (cfg : Config) (call_sid : string)
  : M Globals (option Session) :=
  let* g := get in
  if redis_on cfg then
    match redis g !! redis_key call_sid with
    | Some _ => ret (_sessions g !! call_sid)
    | None => ret None
    end
  else ret (_sessions g !! call_sid).

Definition set_session (cfg : Config) (now : Z) (call_sid : string) (bot_obj : nat)
  : M Globals unit :=
  do (if redis_on cfg then
        modify (fun g =>
          {| _sessions := _sessions g;
             redis := <[redis_key call_sid := now]> (redis g);
             objects := objects g;
             next_ref := next_ref g |})
      else ret tt) then
  modify (fun g =>
    {| _sessions :=
         <[call_sid := {| bot := bot_obj; start_time := now |}]> (_sessions g);
       redis := redis g;
       objects := objects g;
       next_ref := next_ref g |}).

Definition clear_session (cfg : Config) (call_sid : string) : M Globals unit :=
  do (if redis_on cfg then
        modify (fun g =>
          {| _sessions := _sessions g;
             redis := delete (redis_key call_sid) (redis g);
             objects := objects g;
             next_ref := next_ref g |})
      else ret tt) then
  let* g := get in
  match _sessions g !! call_sid with
  | Some _ =>
      put {| _sessions := delete call_sid (_sessions g);
             redis := redis g;
             objects := objects g;
             next_ref := next_ref g |}
  | None => ret tt
  end.

Definition clean_text_for_tts (text : string) : string :=
  let text := replace "AED" "Arab Emirates Dirham" text in
  let text := replace "ROI" "return on investment" text in
  join " " (split text).

(** ** Objects *)

(** [OptimizedVoiceAssistant(CallSid)]: a new object. *)
Definition new_bot (sid : string) : M Globals nat :=
  let* g := get in
  let r := next_ref g in
  do put {| _sessions := _sessions g;
            redis := redis g;
            objects := <[r := Voice2.init sid]> (objects g);
            next_ref := S r |} then
  ret r.

(** Reading the object behind a reference.  A reference held by a session
    always has its object (lemma [reachable_has_bots]); the [KeyError] only
    makes the function total. *)
Definition deref (r : nat) : M Globals OptimizedVoiceAssistant :=
  let* g := get in
  match objects g !! r with
  | Some b => ret b
  | None => raise KeyError
  end.

Definition update_bot (r : nat) (f : OptimizedVoiceAssistant -> OptimizedVoiceAssistant)
  : M Globals unit :=
  let* b := deref r in
  modify (fun g =>
    {| _sessions := _sessions g;
       redis := redis g;
       objects := <[r := f b]> (objects g);
       next_ref := next_ref g |}).

(** ** Collaborators *)

(** What [await asyncio.wait_for(future, timeout=...)] observes of a call
    handed to the executor: its value when it returned in time, nothing
    when the timeout fired first, or the exception it raised. *)
Inductive outcome : Type :=
| Completed (value : string)
| TimedOut
| Failed.

(** The two blocking calls of a neutral turn, as the event loop sees them:
    [bot.generate_fast_response(user_input, intent)] awaited for 4.0
    seconds and [rag.query_knowledge_base(user_input, k=1)] for 2.0. *)
Record Collaborators : Type := {
  run_generate : OptimizedVoiceAssistant -> string -> string -> outcome;
  run_query : string -> Z -> outcome;
}.

(** The collaborators of the repository when both return in time. *)
Definition prompt_collaborators (rag : RealEstateRAG) : Collaborators :=
  {| run_generate := fun b user_input intent =>
       Completed (generate_fast_response b user_input intent);
     run_query := fun query k => Completed (query_knowledge_base rag query k) |}.

(** [try: x = await asyncio.wait_for(fut, timeout)
     except asyncio.TimeoutError: fut.cancel()] with [x = None] before. *)
Definition wait_for (o : outcome) : M (Frame Globals) (option string) :=
  match o with
  | Completed v => ret (Some v)
  | TimedOut => ret None
  | Failed => raise CollaboratorError
  end.

(** ** Endpoints *)

Definition listen (prompt : string) : Verb :=
  Gather "speech" "/process" 4 (Some "auto") [(prompt, "alice")].

(** [POST /voice] *)
Definition voice (cfg : Config) (now : Z) (CallSid : string)
  : M (Frame Globals) VoiceResponse :=
  let* r := on_globals (new_bot CallSid) in
  do on_globals (set_session cfg now CallSid r) then
  let* b := on_globals (deref r) in
  let cd := client_data b in
  let profit := current_price cd - bought_price cd in
  let* q := lift_result (truediv profit (bought_price cd)) in
  let roi_percentage := PrimFloat.mul q (float_of_int 100) in
  let greeting :=
    "Hi " ++ name cd ++ ", I'm Alexa from Baaz Landmark Real Estate. "
    ++ "Your " ++ location cd ++ " property gained "
    ++ format_int_grouped profit ++ " Arab Emirates Dirhams since "
    ++ str_int (purchase_year cd) ++ " - "
    ++ "that's " ++ format_fixed 1 roi_percentage
    ++ " percent return on investment. Ready to discuss?" in
  do new_response then
  do append (listen (clean_text_for_tts greeting)) then
  do say "I didn't catch that. Goodbye!" "alice" then
  do hangup then
  respond.

(** The combination of the two awaited values: [main_response] and
    [rag_context] are [None] when their wait timed out. *)
Definition combine (main_response rag_context : option string) : string :=
  match main_response with
  | Some main =>
      if truthy main then
        match rag_context with
        | Some ctx =>
            if truthy ctx && (0 <? Z.of_nat (String.length ctx))
            then main ++ " " ++ ctx
            else main
        | None => main
        end
      else FALLBACK_REPLY
  | None => FALLBACK_REPLY
  end.

(** [if len(reply) > 300: reply = reply[:297] + "."] *)
Definition truncate (reply : string) : string :=
  if 300 <? Z.of_nat (String.length reply) then take 297 reply ++ "." else reply.

(** The reply of a neutral turn before it is cleaned for speech. *)
Definition compose_reply (main_response rag_context : option string) : string :=
  truncate (combine main_response rag_context).

(** [POST /process] *)
Definition process (cfg : Config) (env : Collaborators)
    (CallSid : string) (SpeechResult : option string) : M (Frame Globals) VoiceResponse :=
  let* sess := on_globals (get_session cfg CallSid) in
  match sess with
  | None =>
      do new_response then
      do say "Session expired. Please call again or request a callback." "alice" then
      do hangup then
      respond
  | Some sess =>
      let bot := bot sess in
      let user_input := lower (strip (default "" SpeechResult)) in
      if negb (truthy user_input) then
        do new_response then
        do say "Could you repeat that?" "alice" then
        do append (listen "Please say that again.") then
        respond
      else
        let intent := handle_intents user_input in
        do new_response then
        try_except
          (if String.eqb intent "strong_confirm" then
             do on_globals (update_bot bot (fun b =>
                  {| call_sid := call_sid b;
                     confirm_count := confirm_count b + 2;
                     reject_count := reject_count b;
                     client_data := client_data b |})) then
             let reply := "Perfect! I'll prepare detailed ROI projections and our senior advisor will contact you within 24 hours. Goodbye!" in
             do say (clean_text_for_tts reply) "alice" then
             do hangup then
             do on_globals (clear_session cfg CallSid) then
             respond
           else if String.eqb intent "strong_reject" then
             do on_globals (update_bot bot (fun b =>
                  {| call_sid := call_sid b;
                     confirm_count := confirm_count b;
                     reject_count := reject_count b + 2;
                     client_data := client_data b |})) then
             let reply := "I understand. If anything changes, contact Baaz Landmark. Have a nice day!" in
             do say (clean_text_for_tts reply) "alice" then
             do hangup then
             do on_globals (clear_session cfg CallSid) then
             respond
           else
             let* b := on_globals (deref bot) in
             let main_future := run_generate env b user_input intent in
             let rag_future := run_query env user_input 1 in
             let* main_response := wait_for main_future in
             let* rag_context := wait_for rag_future in
             let reply := compose_reply main_response rag_context in
             do say (clean_text_for_tts reply) "alice" then
             do append (listen "What are your thoughts?") then
             respond)
          (fun _ =>
             do say "Technical issue. Connecting you to an agent." "alice" then
             do hangup then
             do on_globals (clear_session cfg CallSid) then
             respond)
  end.

(** [GET /health]: the dictionary it returns. *)
Record Health : Type := {
  status : string;
  active_sessions : Z;
}.

Definition health (g : Globals) : Health :=
  {| status := "healthy";
     active_sessions := Z.of_nat (size (_sessions g)) |}.

End Main.


(* ===================================================================== *)
(** * app/twilio_webhook.py *)
(* ===================================================================== *)

Module TwilioWebhook.

Record ClientData : Type := {
  name : string;
  location : string;
  bedrooms : Z;
  bought_price : Z;
  current_price : Z;
  purchase_year : Z;
}.

Record ReliableVoiceAssistant : Type := {
  call_id : option string;
  client_data : ClientData;
  exchange_count : Z;
  confirmed : bool;
  rejected : bool;
}.

(** [ReliableVoiceAssistant.__init__] *)
Definition init (cid : option string) : ReliableVoiceAssistant :=
  {| call_id := cid;
     client_data :=
       {| name := "John Smith";
          location := "Downtown Dubai";
          bedrooms := 2;
          bought_price := 1200000;
          current_price := 3300000;
          purchase_year := 2020 |};
     exchange_count := 0;
     confirmed := false;
     rejected := false |}.

(** [get_quick_response] *)
Definition get_quick_response (self : ReliableVoiceAssistant) (user_input : string)
  : result string :=
  let cd := client_data self in
  let profit := current_price cd - bought_price cd in
  match truediv profit (bought_price cd) with
  | Raise e => Raise e
  | Ok q =>
      let roi := PrimFloat.mul q (float_of_int 100) in
      if any_in ["yes"; "interested"; "tell me"; "go ahead"; "sure"; "okay"] user_input
      then
        let responses :=
          [ "Excellent! Your property gained " ++ format_int_grouped profit
              ++ " dirhams since " ++ str_int (purchase_year cd) ++ ". That's "
              ++ format_fixed 0 roi
              ++ " percent return. The timing is perfect to maximize this further.";
            "Great! With Dubai's market momentum, smart investors are repositioning now. Would you like to hear about strategic options that could double your returns?";
            "Perfect timing! Your villa's performance shows you make smart investment decisions. Let me share how successful investors are leveraging this market cycle." ] in
        index responses (exchange_count self mod Z.of_nat (List.length responses))
      else if any_in ["no"; "not interested"; "busy"; "later"; "don't want"] user_input
      then
        let responses :=
          [ "I understand you're busy. Just consider - your property doubled in value. What if it could double again through smart repositioning? Just 2 minutes of your time?";
            "No problem. But before I go - would you rather lock in your 2.1 million dirham profit now, or risk waiting through the summer slowdown? Quick question for you.";
            "I respect that. Market timing is personal. If your situation changes, our senior advisors are always available. Have a great day!" ] in
        if 2 <=? exchange_count self then index responses 2
        else index responses (exchange_count self mod 2)
      else if any_in ["how"; "what"; "where"; "when"; "why"] user_input
      then
        Ok "Great question! The strategy is simple - sell your villa at peak value, then acquire 2-3 apartments in high-growth areas. This multiplies your rental income and capital appreciation. Interested in the specifics?"
      else
        Ok ("Based on your excellent " ++ format_fixed 0 roi
            ++ " percent return, you're clearly a smart investor. The question is - are you ready to potentially double these returns through strategic repositioning?")
  end.

(** A session dictionary [{'bot': ..., 'start_time': ...}]. *)
Record Session : Type := {
  bot : nat;
  start_time : Z;
}.

(** The module's globals.  [sessions] is keyed by what
    [request.form.get("CallSid")] returns, [None] included.  [prompts]
    records, latest first, the prompts sent to the generative model. *)
Record Globals : Type := {
  sessions : gmap (option string) Session;
  objects : gmap nat ReliableVoiceAssistant;
  next_ref : nat;
  prompts : list string;
}.

Definition empty_globals : Globals :=
  {| sessions := ∅; objects := ∅; next_ref := 0; prompts := [] |}.

(** [model.generate_content(prompt).text]: the text, or an exception. *)
Definition Model : Type := string -> result string.

Definition nl : string := String (ascii_of_nat 10) EmptyString.
Definition dq : string := String (ascii_of_nat 34) EmptyString.

Definition send_prompt (model : Model) (prompt : string) : M Globals string :=
  do modify (fun g =>
       {| sessions := sessions g;
          objects := objects g;
          next_ref := next_ref g;
          prompts := prompt :: prompts g |}) then
  lift_result (model prompt).

(** [generate_response] *)
Definition generate_response (model : Model) (self : ReliableVoiceAssistant)
    (user_input : string) : M Globals string :=
  let* quick_response := lift_result (get_quick_response self user_input) in
  if truthy quick_response then ret quick_response
  else
    try_except
      (let cd := client_data self in
       let profit := current_price cd - bought_price cd in
       let* q := lift_result (truediv profit (bought_price cd)) in
       let roi := PrimFloat.mul q (float_of_int 100) in
       let prompt :=
         "You are Alexa from Baaz Landmark Real Estate Dubai." ++ nl ++ nl
         ++ "Client: " ++ name cd ++ " owns " ++ str_int (bedrooms cd)
         ++ "-bed villa in " ++ location cd ++ "." ++ nl
         ++ "Investment: Bought " ++ str_int (purchase_year cd) ++ " for "
         ++ format_int_grouped (bought_price cd) ++ " AED, now worth "
         ++ format_int_grouped (current_price cd) ++ " AED." ++ nl
         ++ "Performance: " ++ format_int_grouped profit ++ " AED profit ("
         ++ format_fixed 0 roi ++ "% return)" ++ nl ++ nl
         ++ "User said: " ++ dq ++ user_input ++ dq ++ nl ++ nl
         ++ "Respond as a phone conversation:" ++ nl
         ++ "- 1-2 sentences maximum" ++ nl
         ++ "- Natural, conversational tone" ++ nl
         ++ "- Focus on investment opportunity " ++ nl
         ++ "- End with engaging question" ++ nl
         ++ "- Speak for phone clarity (say " ++ dq ++ "Arab Emirates Dirham"
         ++ dq ++ " not " ++ dq ++ "AED" ++ dq ++ ")" ++ nl ++ nl
         ++ "Response:" in
       let* text := send_prompt model prompt in
       let response := strip text in
       let response :=
         if 200 <? Z.of_nat (String.length response) then
           let sentences := split_on "." response in
           join "." (firstn 2 sentences) ++ "."
         else response in
       ret response)
      (fun _ => lift_result (get_quick_response self "default")).

(** [clean_for_speech]: the replacements in the dictionary's order. *)
Definition replacements : list (string * string) :=
  [ ("AED", "Arab Emirates Dirham");
    ("ROI", "return on investment");
    ("AI", "A.I.");
    ("3.3M", "3.3 million");
    ("1.2M", "1.2 million");
    ("2.1M", "2.1 million");
    ("%", " percent");
    ("&", " and ");
    ("vs", "versus") ].

Definition clean_for_speech (text : string) : string :=
  fold_left (fun text r => replace (fst r) (snd r) text) replacements text.

(** ** Objects and sessions *)

Definition new_bot (cid : option string) : M Globals nat :=
  let* g := get in
  let r := next_ref g in
  do put {| sessions := sessions g;
            objects := <[r := init cid]> (objects g);
            next_ref := S r;
            prompts := prompts g |} then
  ret r.

(** As in [Main]: a reference held by a session always has its object
    (lemma [hook_reachable_sound]). *)
Definition deref (r : nat) : M Globals ReliableVoiceAssistant :=
  let* g := get in
  match objects g !! r with
  | Some b => ret b
  | None => raise KeyError
  end.

Definition update_bot (r : nat)
    (f : ReliableVoiceAssistant -> ReliableVoiceAssistant) : M Globals unit :=
  let* b := deref r in
  modify (fun g =>
    {| sessions := sessions g;
       objects := <[r := f b]> (objects g);
       next_ref := next_ref g;
       prompts := prompts g |}).

(** [sessions[call_sid] = {...}] *)
Definition store_session (call_sid : option string) (s : Session) : M Globals unit :=
  modify (fun g =>
    {| sessions := <[call_sid := s]> (sessions g);
       objects := objects g;
       next_ref := next_ref g;
       prompts := prompts g |}).

(** [del sessions[call_sid]] *)
Definition del_session (call_sid : option string) : M Globals unit :=
  let* g := get in
  match sessions g !! call_sid with
  | Some _ =>
      put {| sessions := delete call_sid (sessions g);
             objects := objects g;
             next_ref := next_ref g;
             prompts := prompts g |}
  | None => raise KeyError
  end.

(** ** Endpoints *)

Definition listen (prompt : string) : Verb :=
  Gather "speech" "/process" 5 None [(prompt, "alice")].

(** [POST /voice] *)
Definition voice (now : Z) (call_sid : option string)
  : M (Frame Globals) VoiceResponse :=
  let* r := on_globals (new_bot call_sid) in
  do on_globals (store_session call_sid {| bot := r; start_time := now |}) then
  let* b := on_globals (deref r) in
  do new_response then
  let cd := client_data b in
  let profit := current_price cd - bought_price cd in
  let* q := lift_result (truediv profit (bought_price cd)) in
  let roi := PrimFloat.mul q (float_of_int 100) in
  let greeting :=
    "Hi " ++ name cd ++ ", this is Alexa from Baaz Landmark Real Estate. "
    ++ "Your " ++ location cd ++ " property gained "
    ++ format_int_grouped profit ++ " Arab Emirates Dirhams since "
    ++ str_int (purchase_year cd) ++ ". "
    ++ "That's " ++ format_fixed 0 roi
    ++ " percent return on investment! Are you interested in maximizing this further?" in
  do append (listen (clean_for_speech greeting)) then
  do say "I didn't hear a response. Our team will call you back. Goodbye!" "alice" then
  do hangup then
  respond.

(** The phrases [process] checks for before generating a reply. *)
Definition exit_phrases : list string :=
  ["not interested"; "don't call"; "remove me"; "stop calling"].

Definition positive_phrases : list string :=
  ["very interested"; "let's do it"; "send information"; "connect me"].

(** [bot.exchange_count += 1] *)
Definition bump (b : ReliableVoiceAssistant) : ReliableVoiceAssistant :=
  {| call_id := call_id b;
     client_data := client_data b;
     exchange_count := exchange_count b + 1;
     confirmed := confirmed b;
     rejected := rejected b |}.

(** [POST /process] *)
Definition process (model : Model) (call_sid : option string)
    (SpeechResult : option string) : M (Frame Globals) VoiceResponse :=
  let* g := on_globals get in
  match sessions g !! call_sid with
  | None =>
      do new_response then
      do say "Session expired. Please call back." "alice" then
      do hangup then
      respond
  | Some sess =>
      let bot := bot sess in
      do new_response then
      try_except
        (let user_input := lower (default "" SpeechResult) in
         if negb (truthy (strip user_input)) then
           let* b := on_globals (deref bot) in
           if exchange_count b =? 0 then
             do append (listen "I didn't catch that. Are you interested in hearing about maximizing your property returns?") then
             respond
           else
             do say "I'm having trouble hearing you. Our senior advisor will call you back within 24 hours. Thank you!" "alice" then
             do hangup then
             do on_globals (del_session call_sid) then
             respond
         else
           do on_globals (update_bot bot bump) then
           if any_in exit_phrases user_input then
             do say "I understand. You'll be removed from our calling list. Have a great day!" "alice" then
             do hangup then
             do on_globals (del_session call_sid) then
             respond
           else if any_in positive_phrases user_input then
             do say "Excellent! I'll send you detailed investment projections via WhatsApp and have our senior advisor contact you within 24 hours with specific opportunities. Thank you!" "alice" then
             do hangup then
             do on_globals (del_session call_sid) then
             respond
           else
             let* b := on_globals (deref bot) in
             let* reply := on_globals (generate_response model b user_input) in
             let clean_reply := clean_for_speech reply in
             if 4 <=? exchange_count b then
               let final_message := "I can see you need time to consider this. Our senior advisor will send you detailed information and follow up personally. Thank you for your time!" in
               do say (clean_for_speech final_message) "alice" then
               do hangup then
               do on_globals (del_session call_sid) then
               respond
             else
               do say clean_reply "alice" then
               do append (listen "What do you think?") then
               respond)
        (fun _ =>
           do say "I'm experiencing a technical issue. Our senior advisor will call you back shortly. Thank you!" "alice" then
           do hangup then
           let* g := on_globals get in
           do (match sessions g !! call_sid with
               | Some _ => on_globals (del_session call_sid)
               | None => ret tt
               end) then
           respond)
  end.

End TwilioWebhook.

(* ===================================================================== *)
(** * Vocabulary of the properties *)
(* ===================================================================== *)

(** ** Strings *)

(** [w] occurs in [s]. *)
Definition occurs_in (w s : string) : Prop :=
  exists pre post, s = pre ++ w ++ post.

(** [s] ends with the character [c]. *)
Definition ends_with (c : ascii) (s : string) : Prop :=
  exists p, s = p ++ String c EmptyString.

(** ** Intents *)

Definition intents : list string := ["strong_confirm"; "strong_reject"; "neutral"].

(** ** main.py *)

Section MainVocabulary.
Import Voice2 Main.

(** What [process] makes of the recognised speech. *)
Definition heard (SpeechResult : option string) : string :=
  lower (strip (default "" SpeechResult)).

(** The value a wait leaves in its variable. *)
Definition awaited (o : outcome) : option string :=
  match o with
  | Completed v => Some v
  | TimedOut | Failed => None
  end.

Definition session_expired : VoiceResponse :=
  [Say "Session expired. Please call again or request a callback." "alice"; Hangup].

Definition reprompt : VoiceResponse :=
  [Say "Could you repeat that?" "alice"; listen "Please say that again."].

Definition confirm_closing : VoiceResponse :=
  [Say "Perfect! I'll prepare detailed return on investment projections and our senior advisor will contact you within 24 hours. Goodbye!" "alice";
   Hangup].

Definition reject_closing : VoiceResponse :=
  [Say "I understand. If anything changes, contact Baaz Landmark. Have a nice day!" "alice";
   Hangup].

Definition technical_issue : VoiceResponse :=
  [Say "Technical issue. Connecting you to an agent." "alice"; Hangup].

(** The globals with the object behind [r] replaced by [b]. *)
Definition with_object (g : Globals) (r : nat) (b : OptimizedVoiceAssistant)
  : Globals :=
  {| _sessions := _sessions g;
     redis := redis g;
     objects := <[r := b]> (objects g);
     next_ref := next_ref g |}.

Definition confirmed_more (b : OptimizedVoiceAssistant) : OptimizedVoiceAssistant :=
  {| call_sid := call_sid b;
     confirm_count := confirm_count b + 2;
     reject_count := reject_count b;
     client_data := client_data b |}.

Definition rejected_more (b : OptimizedVoiceAssistant) : OptimizedVoiceAssistant :=
  {| call_sid := call_sid b;
     confirm_count := confirm_count b;
     reject_count := reject_count b + 2;
     client_data := client_data b |}.

(** The globals after [/voice] has created the bot and stored the
    session. *)
Definition stored (cfg : Config) (now : Z) (sid : string) (g : Globals) : Globals :=
  {| _sessions := <[sid := {| bot := next_ref g; start_time := now |}]> (_sessions g);
     redis := if redis_on cfg then <[redis_key sid := now]> (redis g) else redis g;
     objects := <[next_ref g := Voice2.init sid]> (objects g);
     next_ref := S (next_ref g) |}.

(** Every session holds a reference to a bot that exists. *)
Definition sessions_have_bots (g : Globals) : Prop :=
  forall sid s, _sessions g !! sid = Some s -> is_Some (objects g !! bot s).

(** The globals the two endpoints can produce from the initial ones. *)
Inductive reachable (cfg : Config) : Globals -> Prop :=
| reach_start : reachable cfg empty_globals
| reach_voice g now CallSid :
    reachable cfg g -> reachable cfg (snd (run (voice cfg now CallSid) g))
| reach_process g env CallSid SpeechResult :
    reachable cfg g ->
    reachable cfg (snd (run (process cfg env CallSid SpeechResult) g)).

End MainVocabulary.

(** ** twilio_webhook.py *)

Section WebhookVocabulary.
Import TwilioWebhook.

Definition call_back_expired : VoiceResponse :=
  [Say "Session expired. Please call back." "alice"; Hangup].

Definition first_reprompt : VoiceResponse :=
  [TwilioWebhook.listen "I didn't catch that. Are you interested in hearing about maximizing your property returns?"].

Definition hard_to_hear : VoiceResponse :=
  [Say "I'm having trouble hearing you. Our senior advisor will call you back within 24 hours. Thank you!" "alice";
   Hangup].

Definition removed_from_list : VoiceResponse :=
  [Say "I understand. You'll be removed from our calling list. Have a great day!" "alice";
   Hangup].

Definition advisor_follow_up : VoiceResponse :=
  [Say "Excellent! I'll send you detailed investment projections via WhatsApp and have our senior advisor contact you within 24 hours with specific opportunities. Thank you!" "alice";
   Hangup].

Definition wrap_up : VoiceResponse :=
  [Say "I can see you need time to consider this. Our senior advisor will send you detailed information and follow up personally. Thank you for your time!" "alice";
   Hangup].

Definition technical_apology : VoiceResponse :=
  [Say "I'm experiencing a technical issue. Our senior advisor will call you back shortly. Thank you!" "alice";
   Hangup].

(** The globals after [bot.exchange_count += 1] on the object behind [r]. *)
Definition bumped (g : Globals) (r : nat) (b : ReliableVoiceAssistant) : Globals :=
  {| sessions := sessions g;
     objects := <[r := bump b]> (objects g);
     next_ref := next_ref g;
     prompts := prompts g |}.

(** The globals after [del sessions[call_sid]]. *)
Definition without_session (g : Globals) (call_sid : option string) : Globals :=
  {| sessions := delete call_sid (sessions g);
     objects := objects g;
     next_ref := next_ref g;
     prompts := prompts g |}.

(** What [process] makes of the recognised speech. *)
Definition heard_raw (SpeechResult : option string) : string :=
  lower (default "" SpeechResult).

(** The globals after [/voice] has created the bot and stored the
    session. *)
Definition hook_stored (now : Z) (sid : option string) (g : Globals) : Globals :=
  {| sessions := <[sid := {| bot := next_ref g; start_time := now |}]> (sessions g);
     objects := <[next_ref g := init sid]> (objects g);
     next_ref := S (next_ref g);
     prompts := prompts g |}.

(** Every session holds a reference to a bot that exists, and every bot
    has a purchase price to divide by. *)
Definition sound (g : Globals) : Prop :=
  (forall sid s, sessions g !! sid = Some s -> is_Some (objects g !! bot s))
  /\ (forall r b, objects g !! r = Some b -> bought_price (client_data b) <> 0).

(** The globals the two endpoints can produce from the initial ones. *)
Inductive hook_reachable : Globals -> Prop :=
| hook_start : hook_reachable empty_globals
| hook_voice g now call_sid :
    hook_reachable g -> hook_reachable (snd (run (voice now call_sid) g))
| hook_process g model call_sid SpeechResult :
    hook_reachable g ->
    hook_reachable
      (snd (run (TwilioWebhook.process model call_sid SpeechResult) g)).

End WebhookVocabulary.

(** ** Words, characters and what is said *)

(** [s] has a whitespace character. *)
Fixpoint has_space (s : string) : bool :=
  match s with
  | EmptyString => false
  | String c s' => is_space c || has_space s'
  end.

(** A word as [str.split] yields them: not empty, no whitespace. *)
Definition is_word (w : string) : bool := truthy w && negb (has_space w).

(** [s] has a character that is not whitespace. *)
Fixpoint has_text (s : string) : bool :=
  match s with
  | EmptyString => false
  | String c s' => negb (is_space c) || has_text s'
  end.

(** [c] is one of the characters of [s]. *)
Fixpoint has_char (c : ascii) (s : string) : bool :=
  match s with
  | EmptyString => false
  | String a s' => Ascii.eqb c a || has_char c s'
  end.

(** The texts a response has Twilio say, those inside a [Gather] included. *)
Definition said (response : VoiceResponse) : list string :=
  flat_map (fun v =>
    match v with
    | Say text _ => [text]
    | Gather _ _ _ _ nested => map fst nested
    | Hangup => []
    end) response.

(** ** main.py: sessions and calls *)

Section MainCalls.
Import Voice2 Main.

(** What [/voice] answers. *)
Definition greeting : VoiceResponse :=
  [listen "Hi Client, I'm Alexa from Baaz Landmark Real Estate. Your Dubai property gained 400,000 Arab Emirates Dirhams since 2018 - that's 40.0 percent return on investment. Ready to discuss?";
   Say "I didn't catch that. Goodbye!" "alice";
   Hangup].

(** The globals after [set_session]. *)
Definition session_set (cfg : Config) (now : Z) (sid : string) (r : nat)
    (g : Globals) : Globals :=
  {| _sessions := <[sid := {| bot := r; start_time := now |}]> (_sessions g);
     redis := if redis_on cfg then <[redis_key sid := now]> (redis g) else redis g;
     objects := objects g;
     next_ref := next_ref g |}.

(** Sessions hold references below [next_ref], and different calls hold
    different ones. *)
Definition calls_apart (g : Globals) : Prop :=
  (forall sid s, _sessions g !! sid = Some s -> (bot s < next_ref g)%nat)
  /\ (forall sid1 sid2 s1 s2,
         sid1 <> sid2 -> _sessions g !! sid1 = Some s1 ->
         _sessions g !! sid2 = Some s2 -> bot s1 <> bot s2).

End MainCalls.

(** ** twilio_webhook.py: sessions and calls *)

Section WebhookCalls.
Import TwilioWebhook.

(** What [/voice] answers. *)
Definition hook_greeting : VoiceResponse :=
  [TwilioWebhook.listen "Hi John Smith, this is Alexa from Baaz Landmark Real Estate. Your Downtown Dubai property gained 2,100,000 Arab Emirates Dirhams since 2020. That's 175 percent return on investment! Are you interested in maximizing this further?";
   Say "I didn't hear a response. Our team will call you back. Goodbye!" "alice";
   Hangup].

(** Live sessions hold references below [next_ref], different calls hold
    different ones, the bot of a live session has had at most three
    exchanges, and every bot has the constructor's client data. *)
Definition orderly (g : Globals) : Prop :=
  (forall sid s, sessions g !! sid = Some s -> (bot s < next_ref g)%nat)
  /\ (forall sid1 sid2 s1 s2,
         sid1 <> sid2 -> sessions g !! sid1 = Some s1 ->
         sessions g !! sid2 = Some s2 -> bot s1 <> bot s2)
  /\ (forall sid s, sessions g !! sid = Some s ->
        exists b, objects g !! bot s = Some b /\ 0 <= exchange_count b <= 3)
  /\ (forall r b, objects g !! r = Some b ->
        client_data b = client_data (init None)).

(** The first of the replies [get_quick_response] keeps for a refusal. *)
Definition busy_opener : string :=
  "I understand you're busy. Just consider - your property doubled in value. What if it could double again through smart repositioning? Just 2 minutes of your time?".

End WebhookCalls.

(** ** Scenarios *)

(** *** main.py *)

(** No [REDIS_URL]: sessions are kept in memory. *)
Definition in_memory : Main.Config :=
  {| Main.REDIS_URL := None; Main.REDIS_AVAILABLE := false |}.

(** No [GOOGLE_API_KEY]: the lookup answers with its fixed text. *)
Definition dummy_rag : PropertyRag.RealEstateRAG := PropertyRag.init None false.

Definition test_call : string := "CA123TIMEOUT".
Definition test_speech : option string := Some "Tell me about ROI".
Definition caller : Voice2.OptimizedVoiceAssistant := Voice2.init test_call.

(** The globals after [POST /voice] for the call [CA123TIMEOUT]. *)
Definition call_started : Main.Globals :=
  snd (run (Main.voice in_memory 1700000000 test_call) Main.empty_globals).

Definition started_session : Main.Session :=
  {| Main.bot := 0; Main.start_time := 1700000000 |}.

(** The generator of [tests/test_process_timeout.py]: it sleeps past the
    timeout; the lookup answers in time. *)
Definition slow_generator : Main.Collaborators :=
  {| Main.run_generate := fun _ _ _ => Main.TimedOut;
     Main.run_query := fun query k =>
       Main.Completed (PropertyRag.query_knowledge_base dummy_rag query k) |}.



(** A generator that raises. *)
Definition failing_generator : Main.Collaborators :=
  {| Main.run_generate := fun _ _ _ => Main.Failed;
     Main.run_query := fun query k =>
       Main.Completed (PropertyRag.query_knowledge_base dummy_rag query k) |}.

Definition priced_reply : string :=
  "Your villa was bought for 1,200,000 AED and is now valued at 3,300,000 AED, a gain of 2,100,000 AED. Selling at the peak and buying two apartments could raise your rental income. Shall I walk you through the numbers?".

(** A generator that quotes prices, with the lookup answering in time. *)
Definition pricing_generator : Main.Collaborators :=
  {| Main.run_generate := fun _ _ _ => Main.Completed priced_reply;
     Main.run_query := fun query k =>
       Main.Completed (PropertyRag.query_knowledge_base dummy_rag query k) |}.

Definition wordy_reply : string :=
  "Thanks for asking. Your Downtown Dubai villa has already gained more than two million dirhams since you bought it in 2020, and the current market cycle favours owners who reposition early. Many of our clients sell one large unit at the peak and move into two or three smaller apartments in high-growth districts, which spreads the risk.".

(** A generator with a long answer, with a lookup that times out. *)
Definition wordy_generator : Main.Collaborators :=
  {| Main.run_generate := fun _ _ _ => Main.Completed wordy_reply;
     Main.run_query := fun _ _ => Main.TimedOut |}.

(** One turn of the call with the repository's own collaborators. *)
Definition neutral_turn (g : Main.Globals) : result VoiceResponse * Main.Globals :=
  run (Main.process in_memory (Main.prompt_collaborators dummy_rag) test_call test_speech) g.

(** *** twilio_webhook.py *)

Definition quiet_model : TwilioWebhook.Model := fun _ => Raise CollaboratorError.

Definition webhook_started : TwilioWebhook.Globals :=
  snd (run (TwilioWebhook.voice 1700000000 (Some "CA123"))
         TwilioWebhook.empty_globals).

Definition webhook_session : TwilioWebhook.Session :=
  {| TwilioWebhook.bot := 0; TwilioWebhook.start_time := 1700000000 |}.

Definition webhook_turn (g : TwilioWebhook.Globals) : TwilioWebhook.Globals :=
  snd (run (TwilioWebhook.process quiet_model (Some "CA123") (Some "Hmm")) g).

(** The globals after three turns of the call. *)
Definition after_three_turns : TwilioWebhook.Globals :=
  webhook_turn (webhook_turn (webhook_turn webhook_started)).

Definition thrice (b : TwilioWebhook.ReliableVoiceAssistant)
  : TwilioWebhook.ReliableVoiceAssistant :=
  TwilioWebhook.bump (TwilioWebhook.bump (TwilioWebhook.bump b)).

(** *** Two calls at once *)

(** A second call, [CA456], answered while [CA123TIMEOUT] is open. *)
Definition two_calls : Main.Globals :=
  snd (run (Main.voice in_memory 1700000100 "CA456") call_started).

(** The webhook's call [CA123] after one turn. *)
Definition after_one_turn : TwilioWebhook.Globals := webhook_turn webhook_started.

(* ===================================================================== *)
(** * Proof support *)
(* ===================================================================== *)

#[local] Arguments String.append !s1 s2 : simpl nomatch.

(** Runs the handler's plumbing, leaving the calls into the program. *)
Ltac exec :=
  cbv [run bind try_except ret raise get put modify lift_result
       on_globals new_response append say hangup respond globals resp].

(* ===================================================================== *)
(** * Facts about the string functions *)
(* ===================================================================== *)

Module PyFacts.

Lemma append_nil_r (s : string) : s ++ "" = s.
Proof. induction s as [|c s IH]; simpl; [reflexivity | now rewrite IH]. Qed.

Lemma append_assoc (a b c : string) : (a ++ b) ++ c = a ++ (b ++ c).
Proof. induction a as [|x a IH]; simpl; [reflexivity | now rewrite IH]. Qed.

Lemma length_append (a b : string) :
  String.length (a ++ b) = (String.length a + String.length b)%nat.
Proof. induction a as [|x a IH]; simpl; [reflexivity | now rewrite IH]. Qed.

Lemma prefix_iff (w s : string) :
  String.prefix w s = true <-> exists post, s = w ++ post.
Proof.
  revert s. induction w as [|c w IH]; intros s.
  - destruct s; simpl; split; eauto.
  - destruct s as [|d s]; simpl.
    + split; [discriminate | intros [post H]; discriminate].
    + destruct (Ascii.ascii_dec c d) as [->|Hne].
      * rewrite IH. split; intros [post H]; exists post.
        -- now rewrite H.
        -- now inversion H.
      * split; [discriminate | intros [post H]; inversion H; congruence].
Qed.

Lemma contains_iff (w s : string) : contains w s = true <-> occurs_in w s.
Proof.
  induction s as [|c s IH].
  - change (contains w "") with (String.prefix w "" || false).
    rewrite orb_false_r, prefix_iff. split.
    + intros [post H]. now exists "", post.
    + intros [pre [post H]]. destruct pre; [now exists post | discriminate].
  - change (contains w (String c s))
      with (String.prefix w (String c s) || contains w s).
    rewrite orb_true_iff, prefix_iff, IH. split.
    + intros [[post H] | [pre [post H]]].
      * now exists "", post.
      * exists (String c pre), post. simpl. now rewrite H.
    + intros [pre [post H]]. destruct pre as [|d pre]; simpl in H.
      * left. now exists post.
      * right. inversion H. now exists pre, post.
Qed.

Lemma any_in_iff (words : list string) (s : string) :
  any_in words s = true <-> exists w, In w words /\ occurs_in w s.
Proof.
  unfold any_in. rewrite existsb_exists.
  split; intros [w [Hin H]]; exists w; split; auto; now apply contains_iff.
Qed.

Lemma lower_append (a b : string) : lower (a ++ b) = lower a ++ lower b.
Proof. induction a as [|x a IH]; simpl; [reflexivity | now rewrite IH]. Qed.

(** Lower-casing keeps the occurrences of a word that is in lower case. *)
Lemma occurs_in_lower (w s : string) :
  lower w = w -> occurs_in w s -> occurs_in w (lower s).
Proof.
  intros Hw [pre [post ->]]. exists (lower pre), (lower post).
  now rewrite !lower_append, Hw.
Qed.

Lemma length_take (n : nat) (s : string) :
  String.length (take n s) = Nat.min n (String.length s).
Proof.
  revert s. induction n as [|n IH]; intros [|c s]; simpl; auto.
Qed.

(** *** The last character *)

Lemma ends_with_cons (c a : ascii) (s : string) :
  ends_with c s -> ends_with c (String a s).
Proof. intros [p ->]. now exists (String a p). Qed.

Lemma ends_with_append (c : ascii) (a s : string) :
  ends_with c s -> ends_with c (a ++ s).
Proof. intros [p ->]. exists (a ++ p). now rewrite append_assoc. Qed.

Lemma ends_with_single (c : ascii) : ends_with c (String c "").
Proof. now exists "". Qed.

Lemma ends_with_nonempty (c : ascii) : ~ ends_with c "".
Proof. intros [[|a p] H]; discriminate. Qed.

(** The last character of a string of two or more characters is the last
    character of its tail. *)
Lemma ends_with_tail (c a b : ascii) (s : string) :
  ends_with c (String a (String b s)) -> ends_with c (String b s).
Proof.
  intros [[|x p] H]; simpl in H; [discriminate |].
  inversion H. now exists p.
Qed.

Lemma ends_with_one (c a : ascii) : ends_with c (String a "") -> a = c.
Proof.
  intros [[|x p] H]; simpl in H.
  - now inversion H.
  - inversion H as [[Hx Hp]]. destruct p; discriminate.
Qed.

(** A suffix that is left of [w ++ rest] when [w] has no [c] in it. *)
Lemma ends_with_after (c : ascii) (w rest : string) :
  contains (String c "") w = false ->
  ends_with c (w ++ rest) -> ends_with c rest.
Proof.
  induction w as [|a w IH]; intros Hw H; [exact H |].
  change (contains (String c "") (String a w))
    with (String.prefix (String c "") (String a w) || contains (String c "") w)
    in Hw.
  apply orb_false_elim in Hw as [Ha Hw].
  simpl in H. destruct (w ++ rest) as [|b t] eqn:E.
  - apply ends_with_one in H. subst a. simpl in Ha.
    destruct (ascii_dec c c); [destruct w; discriminate | congruence].
  - apply IH; [exact Hw |]. eapply ends_with_tail; exact H.
Qed.

Lemma replace_from_skip (old new o2 rest : string) :
  replace_from old new (String.length o2) (o2 ++ rest) =
  replace_from old new 0 rest.
Proof. induction o2 as [|a o2 IH]; simpl; [reflexivity | exact IH]. Qed.

(** [replace] keeps the last character when the replaced word does not
    contain it. *)
Lemma replace_ends_with (c : ascii) (old new : string) :
  old <> "" -> contains (String c "") old = false ->
  forall s, ends_with c s -> ends_with c (replace old new s).
Proof.
  intros Hne Hc. unfold replace.
  assert (H : forall n s, (String.length s <= n)%nat ->
            ends_with c s -> ends_with c (replace_from old new 0 s)).
  { induction n as [|n IH]; intros s Hn He.
    - destruct s; [now apply ends_with_nonempty in He | simpl in Hn; lia].
    - destruct s as [|a s]; [now apply ends_with_nonempty in He |].
      simpl in Hn.
      change (replace_from old new 0 (String a s)) with
        (if String.prefix old (String a s)
         then new ++ match String.length old with
                     | O => String a (replace_from old new 0 s)
                     | S k => replace_from old new k s
                     end
         else String a (replace_from old new 0 s)).
      destruct (String.prefix old (String a s)) eqn:Ep.
      + apply prefix_iff in Ep as [rest Hrest].
        destruct old as [|o old']; [congruence |].
        simpl in Hrest. inversion Hrest as [[Ho Hs]].
        cbn [String.length]. rewrite replace_from_skip.
        apply ends_with_append, IH.
        * rewrite Hs, length_append in Hn. lia.
        * apply (ends_with_after c (String o old') rest Hc).
          rewrite Hrest in He. exact He.
      + destruct s as [|b s].
        * apply ends_with_one in He. subst a.
          destruct old; [congruence |]. apply ends_with_single.
        * apply ends_with_cons, IH; [simpl in *; lia |].
          eapply ends_with_tail; exact He. }
  intros s. now apply (H (String.length s)).
Qed.

Lemma join_cons_char (sep : string) (a : ascii) (w : string) (ws : list string) :
  join sep (String a w :: ws) = String a (join sep (w :: ws)).
Proof. destruct ws; reflexivity. Qed.

(** [" ".join(s.split())] keeps a last character that is not a space. *)
Lemma join_split_ends_with (c : ascii) (s : string) :
  is_space c = false -> ends_with c s -> ends_with c (join " " (split s)).
Proof.
  intros Hc. unfold split. induction s as [|a s IH]; intros He.
  - now apply ends_with_nonempty in He.
  - cbn [split_run]. destruct s as [|b s].
    + apply ends_with_one in He. subst a. cbn [split_run]. rewrite Hc.
      apply ends_with_single.
    + specialize (IH (ends_with_tail _ _ _ _ He)).
      destruct (split_run (String b s)) as [w ws].
      destruct (is_space a).
      * exact IH.
      * cbn [push_word]. destruct w as [|x w]; cbn [push_word] in IH.
        -- destruct ws as [|p ps]; [now apply ends_with_nonempty in IH |].
           change (join " " (String a "" :: p :: ps))
             with (String a "" ++ " " ++ join " " (p :: ps)).
           now apply ends_with_append, ends_with_append.
        -- rewrite join_cons_char. now apply ends_with_cons.
Qed.

(** *** Lower-casing and trimming commute *)

Lemma is_space_lower_char (c : ascii) : is_space (lower_char c) = is_space c.
Proof.
  destruct c as [[] [] [] [] [] [] [] []]; reflexivity.
Qed.

Lemma lstrip_lower (s : string) : lstrip (lower s) = lower (lstrip s).
Proof.
  induction s as [|c s IH]; [reflexivity |].
  cbn [lower lstrip]. rewrite is_space_lower_char.
  destruct (is_space c); [exact IH | reflexivity].
Qed.

Lemma rstrip_lower (s : string) : rstrip (lower s) = lower (rstrip s).
Proof.
  induction s as [|c s IH]; [reflexivity |].
  cbn [lower rstrip]. rewrite IH, is_space_lower_char.
  destruct (rstrip s); cbn [lower]; [destruct (is_space c) |]; reflexivity.
Qed.

Lemma strip_lower (s : string) : strip (lower s) = lower (strip s).
Proof. unfold strip. now rewrite lstrip_lower, rstrip_lower. Qed.

Lemma truthy_lower (s : string) : truthy (lower s) = truthy s.
Proof. destruct s; reflexivity. Qed.

End PyFacts.
Import PyFacts.

(* ===================================================================== *)
(** * The intent classifier *)
(* ===================================================================== *)

Section Classifier.
Import Voice2.

Lemma handle_intents_closed (text : string) : In (handle_intents text) intents.
Proof.
  unfold handle_intents, intents.
  destruct (any_in confirm_words (lower text)); [simpl; auto |].
  destruct (any_in reject_words (lower text)); simpl; auto.
Qed.

(** An intent that is neither of the two decisive ones is [neutral]. *)
Lemma handle_intents_neutral (text : string) :
  handle_intents text <> "strong_confirm" ->
  handle_intents text <> "strong_reject" ->
  handle_intents text = "neutral".
Proof.
  intros H1 H2. destruct (handle_intents_closed text) as [H|[H|[H|[]]]]; congruence.
Qed.

(** The keywords are in lower case, so one that occurs in the utterance
    occurs in the lower-cased utterance. *)
Lemma keyword_survives_lower (words : list string) (text : string) :
  Forall (fun w => lower w = w) words ->
  (exists w, In w words /\ occurs_in w text) ->
  exists w, In w words /\ occurs_in w (lower text).
Proof.
  intros Hlow [w [Hin Ho]]. exists w. split; [exact Hin |].
  apply occurs_in_lower; [| exact Ho].
  rewrite List.Forall_forall in Hlow. now apply Hlow.
Qed.

Lemma confirm_words_lower : Forall (fun w => lower w = w) confirm_words.
Proof. repeat constructor. Qed.

Lemma reject_words_lower : Forall (fun w => lower w = w) reject_words.
Proof. repeat constructor. Qed.

(** C2. [handle_intents] lower-cases its input and answers
    [strong_confirm] when a confirm keyword occurs in it, otherwise
    [strong_reject] when a reject keyword occurs in it, otherwise
    [neutral]; an utterance with a keyword of each kind is a
    [strong_confirm]; the answer is always one of the three intents. *)
Theorem handle_intents_spec (text : string) :
  let confirm := exists w, In w confirm_words /\ occurs_in w (lower text) in
  let reject := exists w, In w reject_words /\ occurs_in w (lower text) in
  (confirm -> handle_intents text = "strong_confirm")
  /\ (~ confirm -> reject -> handle_intents text = "strong_reject")
  /\ (~ confirm -> ~ reject -> handle_intents text = "neutral")
  /\ (confirm -> reject -> handle_intents text = "strong_confirm")
  /\ ((exists w, In w confirm_words /\ occurs_in w text) ->
      (exists w, In w reject_words /\ occurs_in w text) ->
      confirm /\ reject /\ handle_intents text = "strong_confirm")
  /\ In (handle_intents text) intents.
Proof.
  intros confirm reject.
  assert (Hc : any_in confirm_words (lower text) = true <-> confirm)
    by apply any_in_iff.
  assert (Hr : any_in reject_words (lower text) = true <-> reject)
    by apply any_in_iff.
  assert (Hconfirm : confirm -> handle_intents text = "strong_confirm").
  { intros H. apply Hc in H. unfold handle_intents. now rewrite H. }
  split; [exact Hconfirm |].
  split.
  { intros Hn H. apply Hr in H. unfold handle_intents. rewrite H.
    destruct (any_in confirm_words (lower text)); [| reflexivity].
    exfalso. apply Hn, Hc. reflexivity. }
  split.
  { intros Hn Hn'. unfold handle_intents.
    destruct (any_in confirm_words (lower text));
      [exfalso; apply Hn, Hc; reflexivity |].
    destruct (any_in reject_words (lower text));
      [exfalso; apply Hn', Hr; reflexivity | reflexivity]. }
  split; [intros H _; exact (Hconfirm H) |].
  split; [| apply handle_intents_closed].
  intros Hraw Hraw'.
  pose proof (keyword_survives_lower _ _ confirm_words_lower Hraw) as H.
  pose proof (keyword_survives_lower _ _ reject_words_lower Hraw') as H'.
  split; [exact H | split; [exact H' | exact (Hconfirm H)]].
Qed.

End Classifier.

(* ===================================================================== *)
(** * main.py: one turn of [/process] *)
(* ===================================================================== *)

Section MainTurn.
Import Voice2 Main.

Variable cfg : Config.
Variable env : Collaborators.

(** *** The session store *)

Lemma get_session_returns (g : Globals) (sid : string) :
  exists o, get_session cfg sid g = (Ok o, g).
Proof.
  unfold get_session. exec.
  destruct (redis_on cfg); [destruct (redis g !! redis_key sid)|]; eauto.
Qed.

Lemma get_session_absent (g : Globals) (sid : string) :
  _sessions g !! sid = None -> get_session cfg sid g = (Ok None, g).
Proof.
  intros H. unfold get_session. exec.
  destruct (redis_on cfg); [destruct (redis g !! redis_key sid)|];
    now rewrite ?H.
Qed.

Lemma clear_session_returns (g : Globals) (sid : string) :
  fst (clear_session cfg sid g) = Ok tt.
Proof.
  unfold clear_session. exec.
  destruct (redis_on cfg); cbn [_sessions];
    destruct (_sessions g !! sid); reflexivity.
Qed.

Lemma clear_session_sessions (g : Globals) (sid : string) :
  _sessions (snd (clear_session cfg sid g)) = delete sid (_sessions g).
Proof.
  unfold clear_session. exec.
  destruct (redis_on cfg); cbn [_sessions];
    destruct (_sessions g !! sid) eqn:E; cbn [snd _sessions];
    try reflexivity; symmetry; now apply delete_id.
Qed.

Lemma clear_session_objects (g : Globals) (sid : string) :
  objects (snd (clear_session cfg sid g)) = objects g.
Proof.
  unfold clear_session. exec.
  destruct (redis_on cfg); cbn [_sessions];
    destruct (_sessions g !! sid); reflexivity.
Qed.

Lemma clear_session_gone (g : Globals) (sid : string) :
  _sessions (snd (clear_session cfg sid g)) !! sid = None.
Proof. rewrite clear_session_sessions. apply lookup_delete_eq. Qed.

(** *** The ways through [process] *)

Lemma process_no_session g CallSid SpeechResult :
  get_session cfg CallSid g = (Ok None, g) ->
  run (process cfg env CallSid SpeechResult) g = (Ok session_expired, g).
Proof.
  intros Hs. unfold run, process, bind at 1, on_globals at 1.
  cbn [globals resp]. rewrite Hs. reflexivity.
Qed.

Lemma process_empty g CallSid SpeechResult sess :
  get_session cfg CallSid g = (Ok (Some sess), g) ->
  truthy (heard SpeechResult) = false ->
  run (process cfg env CallSid SpeechResult) g = (Ok reprompt, g).
Proof.
  intros Hs Ht. unfold run, process, bind at 1, on_globals at 1.
  cbn [globals resp]. rewrite Hs. fold (heard SpeechResult). rewrite Ht.
  reflexivity.
Qed.

Lemma process_confirm g CallSid SpeechResult sess b :
  get_session cfg CallSid g = (Ok (Some sess), g) ->
  objects g !! bot sess = Some b ->
  truthy (heard SpeechResult) = true ->
  handle_intents (heard SpeechResult) = "strong_confirm" ->
  run (process cfg env CallSid SpeechResult) g =
    (Ok confirm_closing,
     snd (clear_session cfg CallSid (with_object g (bot sess) (confirmed_more b)))).
Proof.
  intros Hs Hb Ht Hi. unfold run, process, bind at 1, on_globals at 1.
  cbn [globals resp]. rewrite Hs. fold (heard SpeechResult). rewrite Ht, Hi.
  cbn [negb]. change ("strong_confirm" =? "strong_confirm")%string with true.
  cbv beta iota.
  change (clean_text_for_tts _) with
    "Perfect! I'll prepare detailed return on investment projections and our senior advisor will contact you within 24 hours. Goodbye!".
  unfold update_bot, deref. exec. rewrite Hb.
  fold (confirmed_more b). fold (with_object g (bot sess) (confirmed_more b)).
  pose proof (clear_session_returns
                (with_object g (bot sess) (confirmed_more b)) CallSid) as H.
  destruct (clear_session _ _ _) as [u g']. cbn [fst snd] in *.
  now rewrite H.
Qed.

Lemma process_reject g CallSid SpeechResult sess b :
  get_session cfg CallSid g = (Ok (Some sess), g) ->
  objects g !! bot sess = Some b ->
  truthy (heard SpeechResult) = true ->
  handle_intents (heard SpeechResult) = "strong_reject" ->
  run (process cfg env CallSid SpeechResult) g =
    (Ok reject_closing,
     snd (clear_session cfg CallSid (with_object g (bot sess) (rejected_more b)))).
Proof.
  intros Hs Hb Ht Hi. unfold run, process, bind at 1, on_globals at 1.
  cbn [globals resp]. rewrite Hs. fold (heard SpeechResult). rewrite Ht, Hi.
  cbn [negb]. change ("strong_reject" =? "strong_confirm")%string with false.
  change ("strong_reject" =? "strong_reject")%string with true.
  cbv beta iota.
  change (clean_text_for_tts _) with
    "I understand. If anything changes, contact Baaz Landmark. Have a nice day!".
  unfold update_bot, deref. exec. rewrite Hb.
  fold (rejected_more b). fold (with_object g (bot sess) (rejected_more b)).
  pose proof (clear_session_returns
                (with_object g (bot sess) (rejected_more b)) CallSid) as H.
  destruct (clear_session _ _ _) as [u g']. cbn [fst snd] in *.
  now rewrite H.
Qed.

Lemma process_neutral_ok g CallSid SpeechResult sess b :
  get_session cfg CallSid g = (Ok (Some sess), g) ->
  objects g !! bot sess = Some b ->
  truthy (heard SpeechResult) = true ->
  handle_intents (heard SpeechResult) = "neutral" ->
  run_generate env b (heard SpeechResult) "neutral" <> Failed ->
  run_query env (heard SpeechResult) 1 <> Failed ->
  run (process cfg env CallSid SpeechResult) g =
    (Ok [Say (clean_text_for_tts
                (compose_reply
                   (awaited (run_generate env b (heard SpeechResult) "neutral"))
                   (awaited (run_query env (heard SpeechResult) 1))))
             "alice";
         listen "What are your thoughts?"], g).
Proof.
  intros Hs Hb Ht Hi Hg Hq.
  unfold run, process, bind at 1, on_globals at 1. cbn [globals resp].
  rewrite Hs. fold (heard SpeechResult). rewrite Ht, Hi. cbn [negb].
  change ("neutral" =? "strong_confirm")%string with false.
  change ("neutral" =? "strong_reject")%string with false.
  unfold deref, wait_for. exec. rewrite Hb.
  destruct (run_generate env b (heard SpeechResult) "neutral") eqn:Eg;
    [| |congruence];
    (destruct (run_query env (heard SpeechResult) 1) eqn:Eq; [| |congruence]);
    reflexivity.
Qed.

Lemma process_neutral_failed g CallSid SpeechResult sess b :
  get_session cfg CallSid g = (Ok (Some sess), g) ->
  objects g !! bot sess = Some b ->
  truthy (heard SpeechResult) = true ->
  handle_intents (heard SpeechResult) = "neutral" ->
  run_generate env b (heard SpeechResult) "neutral" = Failed
  \/ run_query env (heard SpeechResult) 1 = Failed ->
  run (process cfg env CallSid SpeechResult) g =
    (Ok technical_issue, snd (clear_session cfg CallSid g)).
Proof.
  intros Hs Hb Ht Hi Hf.
  unfold run, process, bind at 1, on_globals at 1. cbn [globals resp].
  rewrite Hs. fold (heard SpeechResult). rewrite Ht, Hi. cbn [negb].
  change ("neutral" =? "strong_confirm")%string with false.
  change ("neutral" =? "strong_reject")%string with false.
  unfold deref, wait_for.
  pose proof (clear_session_returns g CallSid) as H.
  exec. rewrite Hb.
  destruct (clear_session cfg CallSid g) as [u g'] eqn:Ec. cbn [fst snd] in *.
  destruct (run_generate env b (heard SpeechResult) "neutral") eqn:Eg;
    destruct (run_query env (heard SpeechResult) 1) eqn:Eq;
    try (destruct Hf; discriminate);
    rewrite ?Ec, H; reflexivity.
Qed.

(** *** The reply of a neutral turn *)



Lemma truncate_long (reply : string) :
  (300 < String.length reply)%nat -> truncate reply = take 297 reply ++ ".".
Proof.
  intros H. unfold truncate.
  destruct (300 <? Z.of_nat (String.length reply)) eqn:E; [reflexivity | lia].
Qed.

Lemma truncate_length (reply : string) :
  (String.length (truncate reply) <= 300)%nat.
Proof.
  unfold truncate.
  destruct (300 <? Z.of_nat (String.length reply)) eqn:E; [| lia].
  rewrite length_append, length_take.
  change (String.length ".") with 1%nat. lia.
Qed.





(** Cleaning for speech keeps a final period. *)
Lemma clean_text_for_tts_period (text : string) :
  ends_with "." text -> ends_with "." (clean_text_for_tts text).
Proof.
  intros H. unfold clean_text_for_tts.
  apply join_split_ends_with; [reflexivity |].
  apply replace_ends_with; [discriminate | reflexivity |].
  apply replace_ends_with; [discriminate | reflexivity | exact H].
Qed.

(** *** The properties of the specification *)



(** C4, as amended.  On a turn whose intent is not a decisive one and on
    which no collaborator raises, the reply composed by [/process] is at
    most 300 characters long, and when the combined text is longer than
    300 characters the reply is its first 297 characters followed by a
    period.  What is spoken is that reply cleaned for speech, which then
    still ends with the period. *)
Theorem composed_reply_is_capped g CallSid SpeechResult sess b :
  get_session cfg CallSid g = (Ok (Some sess), g) ->
  objects g !! bot sess = Some b ->
  truthy (heard SpeechResult) = true ->
  handle_intents (heard SpeechResult) <> "strong_confirm" ->
  handle_intents (heard SpeechResult) <> "strong_reject" ->
  run_generate env b (heard SpeechResult) (handle_intents (heard SpeechResult))
    <> Failed ->
  run_query env (heard SpeechResult) 1 <> Failed ->
  let main_response :=
    awaited (run_generate env b (heard SpeechResult)
               (handle_intents (heard SpeechResult))) in
  let rag_context := awaited (run_query env (heard SpeechResult) 1) in
  let combined := combine main_response rag_context in
  let reply := compose_reply main_response rag_context in
  run (process cfg env CallSid SpeechResult) g =
    (Ok [Say (clean_text_for_tts reply) "alice";
         listen "What are your thoughts?"], g)
  /\ (String.length reply <= 300)%nat
  /\ ((300 < String.length combined)%nat ->
      reply = take 297 combined ++ "."
      /\ ends_with "." (clean_text_for_tts reply)).
Proof.
  intros Hs Hb Ht Hc Hr Hg Hq.
  pose proof (handle_intents_neutral _ Hc Hr) as Hi. rewrite Hi in *.
  intros main_response rag_context combined reply.
  split; [now apply (process_neutral_ok g CallSid SpeechResult sess b) |].
  split; [apply truncate_length |].
  intros Hlong. subst reply. unfold compose_reply. fold combined.
  rewrite (truncate_long combined Hlong). split; [reflexivity |].
  apply clean_text_for_tts_period, ends_with_append, ends_with_single.
Qed.

(** C5. On a turn whose intent is [strong_confirm] (respectively
    [strong_reject]), [/process] adds 2 to the bot's [confirm_count]
    (respectively [reject_count]), answers with the fixed positive
    (respectively negative) closing line and a hang-up, and removes the
    session, so that any later [/process] request for the same call
    identifier gets the session-expired response. *)
Theorem decisive_turn_closes_call g CallSid SpeechResult sess b :
  get_session cfg CallSid g = (Ok (Some sess), g) ->
  objects g !! bot sess = Some b ->
  truthy (heard SpeechResult) = true ->
  let out := run (process cfg env CallSid SpeechResult) g in
  let closed :=
    continuation confirm_closing = false
    /\ continuation reject_closing = false
    /\ get_session cfg CallSid (snd out) = (Ok None, snd out)
    /\ forall env' SpeechResult',
         run (process cfg env' CallSid SpeechResult') (snd out)
         = (Ok session_expired, snd out) in
  (handle_intents (heard SpeechResult) = "strong_confirm" ->
     fst out = Ok confirm_closing
     /\ objects (snd out) !! bot sess = Some (confirmed_more b)
     /\ confirm_count (confirmed_more b) = confirm_count b + 2
     /\ reject_count (confirmed_more b) = reject_count b
     /\ closed)
  /\ (handle_intents (heard SpeechResult) = "strong_reject" ->
     fst out = Ok reject_closing
     /\ objects (snd out) !! bot sess = Some (rejected_more b)
     /\ reject_count (rejected_more b) = reject_count b + 2
     /\ confirm_count (rejected_more b) = confirm_count b
     /\ closed).
Proof.
  intros Hs Hb Ht out closed.
  assert (Hclosed : _sessions (snd out) !! CallSid = None -> closed).
  { intros Hgone. unfold closed.
    pose proof (get_session_absent (snd out) CallSid Hgone) as Hn.
    repeat split; try reflexivity; try exact Hn.
    intros env' speech'. unfold run, process, bind at 1, on_globals at 1.
    cbn [globals resp]. rewrite Hn. reflexivity. }
  split; intros Hi; subst out.
  - rewrite (process_confirm g CallSid SpeechResult sess b Hs Hb Ht Hi) in *.
    cbn [fst snd] in *. split; [reflexivity |].
    split; [rewrite clear_session_objects; apply lookup_insert_eq |].
    repeat (split; [reflexivity |]).
    apply Hclosed, clear_session_gone.
  - rewrite (process_reject g CallSid SpeechResult sess b Hs Hb Ht Hi) in *.
    cbn [fst snd] in *. split; [reflexivity |].
    split; [rewrite clear_session_objects; apply lookup_insert_eq |].
    repeat (split; [reflexivity |]).
    apply Hclosed, clear_session_gone.
Qed.

Lemma outcome_failed_dec (o : outcome) : {o = Failed} + {o <> Failed}.
Proof. destruct o; [right | right | left]; congruence. Qed.

(** The error path of [/process]: nothing leaves the handler; a raising
    generator or lookup ends the call with the technical-issue line, the
    session removed and the bot objects untouched; a bot object changes
    only on a turn that answers with a composed closing reply. *)
Lemma main_errors_are_caught g CallSid SpeechResult sess b :
  get_session cfg CallSid g = (Ok (Some sess), g) ->
  objects g !! bot sess = Some b ->
  truthy (heard SpeechResult) = true ->
  let user_input := heard SpeechResult in
  let intent := handle_intents user_input in
  let out := run (process cfg env CallSid SpeechResult) g in
  (exists response, fst out = Ok response)
  /\ (intent <> "strong_confirm" -> intent <> "strong_reject" ->
      run_generate env b user_input intent = Failed
      \/ run_query env user_input 1 = Failed ->
      fst out = Ok technical_issue
      /\ continuation technical_issue = false
      /\ ends_call technical_issue = true
      /\ get_session cfg CallSid (snd out) = (Ok None, snd out)
      /\ objects (snd out) = objects g)
  /\ (objects (snd out) <> objects g ->
      fst out = Ok confirm_closing \/ fst out = Ok reject_closing).
Proof.
  intros Hs Hb Ht user_input intent out.
  assert (Hfail : intent = "neutral" ->
            run_generate env b user_input "neutral" = Failed
            \/ run_query env user_input 1 = Failed ->
            out = (Ok technical_issue, snd (clear_session cfg CallSid g))).
  { intros Hi Hf. now apply (process_neutral_failed g CallSid SpeechResult sess b). }
  split; [| split].
  - destruct (handle_intents_closed user_input) as [Hi|[Hi|[Hi|[]]]];
      symmetry in Hi.
    + exists confirm_closing. subst out.
      now rewrite (process_confirm g CallSid SpeechResult sess b).
    + exists reject_closing. subst out.
      now rewrite (process_reject g CallSid SpeechResult sess b).
    + destruct (outcome_failed_dec (run_generate env b user_input "neutral"))
        as [Hg | Hg].
      { exists technical_issue. rewrite (Hfail Hi (or_introl Hg)). reflexivity. }
      destruct (outcome_failed_dec (run_query env user_input 1)) as [Hq | Hq].
      { exists technical_issue. rewrite (Hfail Hi (or_intror Hq)). reflexivity. }
      eexists. subst out.
      now rewrite (process_neutral_ok g CallSid SpeechResult sess b).
  - intros Hc Hr Hf.
    pose proof (handle_intents_neutral _ Hc Hr) as Hi.
    fold user_input intent in Hi. rewrite Hi in Hf.
    rewrite (Hfail Hi Hf). cbn [fst snd].
    repeat split.
    + apply get_session_absent, clear_session_gone.
    + apply clear_session_objects.
  - intros Hobj.
    destruct (handle_intents_closed user_input) as [Hi|[Hi|[Hi|[]]]];
      symmetry in Hi.
    + left. subst out.
      now rewrite (process_confirm g CallSid SpeechResult sess b).
    + right. subst out.
      now rewrite (process_reject g CallSid SpeechResult sess b).
    + exfalso. apply Hobj.
      destruct (outcome_failed_dec (run_generate env b user_input "neutral"))
        as [Hg | Hg].
      { rewrite (Hfail Hi (or_introl Hg)). apply clear_session_objects. }
      destruct (outcome_failed_dec (run_query env user_input 1)) as [Hq | Hq].
      { rewrite (Hfail Hi (or_intror Hq)). apply clear_session_objects. }
      subst out.
      now rewrite (process_neutral_ok g CallSid SpeechResult sess b).
Qed.

(** C8. [get_session] never raises and leaves the globals alone.  For a
    call identifier with no entry in [_sessions] (one that was never
    created, as in the initial globals, or whose session was cleared) it
    returns [None], and [/process] answers such a request with the
    session-expired line and a hang-up instead of raising. *)
Theorem absent_session_fails_closed (g : Globals) (CallSid : string) :
  (exists o, get_session cfg CallSid g = (Ok o, g))
  /\ get_session cfg CallSid empty_globals = (Ok None, empty_globals)
  /\ (let g' := snd (clear_session cfg CallSid g) in
      get_session cfg CallSid g' = (Ok None, g'))
  /\ (_sessions g !! CallSid = None ->
      get_session cfg CallSid g = (Ok None, g)
      /\ forall SpeechResult,
           run (process cfg env CallSid SpeechResult) g = (Ok session_expired, g))
  /\ continuation session_expired = false
  /\ ends_call session_expired = true.
Proof.
  split; [apply get_session_returns |].
  split; [now apply get_session_absent |].
  split; [apply get_session_absent, clear_session_gone |].
  split; [| split; reflexivity].
  intros Habsent.
  pose proof (get_session_absent g CallSid Habsent) as Hn.
  split; [exact Hn |]. intros SpeechResult. now apply process_no_session.
Qed.

End MainTurn.

(* ===================================================================== *)
(** * main.py: the sessions of a reachable state *)
(* ===================================================================== *)

Section MainInvariant.
Import Voice2 Main.

Variable cfg : Config.

Lemma get_session_found g sid s :
  get_session cfg sid g = (Ok (Some s), g) -> _sessions g !! sid = Some s.
Proof.
  unfold get_session. exec.
  destruct (redis_on cfg); [destruct (redis g !! redis_key sid)|];
    intros H; inversion H; auto.
Qed.

Lemma voice_globals now sid g :
  snd (run (voice cfg now sid) g) = stored cfg now sid g.
Proof.
  unfold voice, new_bot, set_session, deref, stored. exec.
  destruct (redis_on cfg); cbn [objects _sessions redis next_ref];
    rewrite lookup_insert_eq; reflexivity.
Qed.

Lemma stored_has_bots now sid g :
  sessions_have_bots g -> sessions_have_bots (stored cfg now sid g).
Proof.
  intros Hwf sid' s. unfold stored. cbn [_sessions objects].
  rewrite lookup_insert. case_decide as Hsid.
  - intros [= <-]. cbn [bot]. rewrite lookup_insert_eq. eauto.
  - intros Hs. apply lookup_insert_is_Some'. right. eapply Hwf; eauto.
Qed.

Lemma cleared_has_bots sid g :
  sessions_have_bots g -> sessions_have_bots (snd (clear_session cfg sid g)).
Proof.
  intros Hwf sid' s. rewrite clear_session_sessions, clear_session_objects.
  intros Hs. apply lookup_delete_Some in Hs as [_ Hs]. eapply Hwf; eauto.
Qed.

Lemma with_object_has_bots r b g :
  sessions_have_bots g -> sessions_have_bots (with_object g r b).
Proof.
  intros Hwf sid s Hs. unfold with_object. cbn [objects].
  apply lookup_insert_is_Some'. right. eapply Hwf; eauto.
Qed.

Lemma process_has_bots env sid speech g :
  sessions_have_bots g ->
  sessions_have_bots (snd (run (process cfg env sid speech) g)).
Proof.
  intros Hwf.
  destruct (get_session_returns cfg g sid) as [[sess|] Hs].
  2: { now rewrite (process_no_session cfg env g sid speech Hs). }
  destruct (Hwf sid sess (get_session_found g sid sess Hs)) as [b Hb].
  destruct (truthy (heard speech)) eqn:Ht.
  2: { now rewrite (process_empty cfg env g sid speech sess Hs Ht). }
  destruct (handle_intents_closed (heard speech)) as [Hi|[Hi|[Hi|[]]]];
    symmetry in Hi.
  - rewrite (process_confirm cfg env g sid speech sess b Hs Hb Ht Hi).
    now apply cleared_has_bots, with_object_has_bots.
  - rewrite (process_reject cfg env g sid speech sess b Hs Hb Ht Hi).
    now apply cleared_has_bots, with_object_has_bots.
  - destruct (outcome_failed_dec (run_generate env b (heard speech) "neutral"))
      as [Hg | Hg].
    { rewrite (process_neutral_failed cfg env g sid speech sess b Hs Hb Ht Hi
                 (or_introl Hg)).
      now apply cleared_has_bots. }
    destruct (outcome_failed_dec (run_query env (heard speech) 1)) as [Hq | Hq].
    { rewrite (process_neutral_failed cfg env g sid speech sess b Hs Hb Ht Hi
                 (or_intror Hq)).
      now apply cleared_has_bots. }
    now rewrite (process_neutral_ok cfg env g sid speech sess b Hs Hb Ht Hi Hg Hq).
Qed.

(** In every state the endpoints can reach, a session that [get_session]
    finds has its bot: [deref] does not raise there. *)
Lemma reachable_has_bots g : reachable cfg g -> sessions_have_bots g.
Proof.
  induction 1 as [| g now sid _ IH | g env sid speech _ IH].
  - intros sid s H. cbn [empty_globals _sessions] in H.
    rewrite lookup_empty in H. discriminate.
  - rewrite voice_globals. now apply stored_has_bots.
  - now apply process_has_bots.
Qed.

End MainInvariant.

(* ===================================================================== *)
(** * twilio_webhook.py: replies and one turn of [/process] *)
(* ===================================================================== *)

Section WebhookTurn.
Import TwilioWebhook.

Variable model : Model.

Lemma index_mod_3 (a b c : string) (z : Z) :
  exists x, index [a; b; c] (z mod 3) = Ok x /\ In x [a; b; c].
Proof.
  pose proof (Z.mod_pos_bound z 3 ltac:(lia)) as H.
  assert (E : z mod 3 = 0 \/ z mod 3 = 1 \/ z mod 3 = 2) by lia.
  destruct E as [-> | [-> | ->]]; eexists; (split; [reflexivity |]);
    simpl; auto.
Qed.

Lemma index_mod_2 (a b c : string) (z : Z) :
  exists x, index [a; b; c] (z mod 2) = Ok x /\ In x [a; b].
Proof.
  pose proof (Z.mod_pos_bound z 2 ltac:(lia)) as H.
  assert (E : z mod 2 = 0 \/ z mod 2 = 1) by lia.
  destruct E as [-> | ->]; eexists; (split; [reflexivity |]); simpl; auto.
Qed.

(** [get_quick_response] raises or returns a non-empty text. *)
Lemma get_quick_response_result (self : ReliableVoiceAssistant) (user_input : string) :
  (bought_price (client_data self) = 0
   /\ get_quick_response self user_input = Raise ZeroDivisionError)
  \/ (bought_price (client_data self) <> 0
      /\ exists text, get_quick_response self user_input = Ok text
                      /\ truthy text = true).
Proof.
  unfold get_quick_response, truediv.
  destruct (bought_price (client_data self) =? 0) eqn:E.
  { left. split; [lia | reflexivity]. }
  right. split; [lia |]. cbv zeta.
  destruct (any_in _ user_input).
  { cbn [List.length]. change (Z.of_nat 3) with 3.
    match goal with
    | |- context [index [?a; ?b; ?c] (?z mod 3)] =>
        destruct (index_mod_3 a b c z) as [x [-> Hin]]
    end.
    exists x. split; [reflexivity |].
    destruct Hin as [<- | [<- | [<- | []]]]; reflexivity. }
  destruct (any_in _ user_input).
  { destruct (2 <=? exchange_count self).
    - eexists. split; reflexivity.
    - match goal with
      | |- context [index [?a; ?b; ?c] (?z mod 2)] =>
          destruct (index_mod_2 a b c z) as [x [-> Hin]]
      end.
      exists x. split; [reflexivity |].
      destruct Hin as [<- | [<- | []]]; reflexivity. }
  destruct (any_in _ user_input); eexists; split; reflexivity.
Qed.

(** [generate_response] is [get_quick_response]: the prompt is never
    built and the model never called. *)
Lemma generate_response_quick (self : ReliableVoiceAssistant) (user_input : string)
    (g : Globals) :
  generate_response model self user_input g =
    (get_quick_response self user_input, g).
Proof.
  unfold generate_response.
  destruct (get_quick_response_result self user_input)
    as [[_ ->] | [_ [text [-> Ht]]]]; exec; [reflexivity |].
  now rewrite Ht.
Qed.

(** *** The ways through [process] *)

Lemma webhook_empty_first_turn g call_sid SpeechResult sess b :
  sessions g !! call_sid = Some sess ->
  objects g !! bot sess = Some b ->
  truthy (strip (heard_raw SpeechResult)) = false ->
  exchange_count b = 0 ->
  run (TwilioWebhook.process model call_sid SpeechResult) g = (Ok first_reprompt, g).
Proof.
  intros Hs Hb Ht Hc.
  unfold run, TwilioWebhook.process, bind at 1, on_globals at 1, get.
  cbn [globals resp]. rewrite Hs. cbv beta iota zeta.
  fold (heard_raw SpeechResult). rewrite Ht. cbn [negb].
  unfold deref. exec. rewrite Hb, Hc. reflexivity.
Qed.

Lemma webhook_bumped_turn g call_sid SpeechResult sess b :
  sessions g !! call_sid = Some sess ->
  objects g !! bot sess = Some b ->
  truthy (strip (heard_raw SpeechResult)) = true ->
  let user_input := heard_raw SpeechResult in
  let g1 := bumped g (bot sess) b in
  run (TwilioWebhook.process model call_sid SpeechResult) g =
    if any_in exit_phrases user_input then
      (Ok removed_from_list, without_session g1 call_sid)
    else if any_in positive_phrases user_input then
      (Ok advisor_follow_up, without_session g1 call_sid)
    else
      match get_quick_response (bump b) user_input with
      | Ok reply =>
          if 4 <=? exchange_count (bump b) then
            (Ok wrap_up, without_session g1 call_sid)
          else
            (Ok [Say (clean_for_speech reply) "alice";
                 TwilioWebhook.listen "What do you think?"], g1)
      | Raise _ => (Ok technical_apology, without_session g1 call_sid)
      end.
Proof.
  intros Hs Hb Ht user_input g1.
  unfold run, TwilioWebhook.process, bind at 1, on_globals at 1, get.
  cbn [globals resp]. rewrite Hs. cbv beta iota zeta.
  fold (heard_raw SpeechResult). rewrite Ht. fold user_input. cbn [negb].
  unfold update_bot, deref, del_session.
  change (clean_for_speech "I can see you need time to consider this. Our senior advisor will send you detailed information and follow up personally. Thank you for your time!")
    with "I can see you need time to consider this. Our senior advisor will send you detailed information and follow up personally. Thank you for your time!".
  exec. rewrite Hb. subst g1. unfold bumped, without_session.
  destruct (any_in exit_phrases user_input).
  { cbn [sessions objects]. rewrite Hs. reflexivity. }
  destruct (any_in positive_phrases user_input).
  { cbn [sessions objects]. rewrite Hs. reflexivity. }
  cbn [sessions objects]. rewrite lookup_insert_eq.
  rewrite generate_response_quick.
  destruct (get_quick_response (bump b) user_input) as [reply | e].
  - destruct (4 <=? exchange_count (bump b)); [| reflexivity].
    cbn [sessions objects]. rewrite Hs. reflexivity.
  - repeat (progress (cbn [sessions objects globals resp]; rewrite ?Hs)).
    reflexivity.
Qed.

(** *** The properties of the specification *)

(** C6, as amended.  In [/process] of [twilio_webhook.py], every turn whose
    utterance is not blank adds one to the bot's [exchange_count].  When
    the count reaches 4, the turn ends the call and removes the session,
    and the reply generated for the turn is replaced by the wrap-up line;
    below 4 the generated reply is spoken and the call goes on. *)
Theorem exchange_count_and_ceiling g call_sid SpeechResult sess b :
  sessions g !! call_sid = Some sess ->
  objects g !! bot sess = Some b ->
  truthy (strip (heard_raw SpeechResult)) = true ->
  let user_input := heard_raw SpeechResult in
  let out := run (TwilioWebhook.process model call_sid SpeechResult) g in
  objects (snd out) !! bot sess = Some (bump b)
  /\ exchange_count (bump b) = exchange_count b + 1
  /\ (4 <= exchange_count b + 1 ->
      (exists response, fst out = Ok response
         /\ continuation response = false /\ ends_call response = true)
      /\ sessions (snd out) !! call_sid = None
      /\ (any_in exit_phrases user_input = false ->
          any_in positive_phrases user_input = false ->
          forall reply, get_quick_response (bump b) user_input = Ok reply ->
          fst out = Ok wrap_up))
  /\ (exchange_count b + 1 < 4 ->
      any_in exit_phrases user_input = false ->
      any_in positive_phrases user_input = false ->
      forall reply, get_quick_response (bump b) user_input = Ok reply ->
      out = (Ok [Say (clean_for_speech reply) "alice";
                 TwilioWebhook.listen "What do you think?"],
             bumped g (bot sess) b)).
Proof.
  intros Hs Hb Ht user_input out.
  pose proof (webhook_bumped_turn g call_sid SpeechResult sess b Hs Hb Ht) as H.
  cbv zeta in H. fold user_input out in H.
  assert (Hobj : objects (bumped g (bot sess) b) !! bot sess = Some (bump b))
    by apply lookup_insert_eq.
  assert (Hdel : sessions (without_session (bumped g (bot sess) b) call_sid)
                 !! call_sid = None) by apply lookup_delete_eq.
  split; [| split; [reflexivity | split]].
  - rewrite H.
    destruct (any_in exit_phrases user_input); [exact Hobj |].
    destruct (any_in positive_phrases user_input); [exact Hobj |].
    destruct (get_quick_response (bump b) user_input); [| exact Hobj].
    destruct (4 <=? exchange_count (bump b)); exact Hobj.
  - intros Hceil.
    assert (Hc : (4 <=? exchange_count (bump b)) = true)
      by (cbn [exchange_count bump]; lia).
    rewrite Hc in H. rewrite H.
    destruct (any_in exit_phrases user_input).
    { split; [eexists; repeat split | split; [exact Hdel | discriminate]]. }
    destruct (any_in positive_phrases user_input).
    { split; [eexists; repeat split | split; [exact Hdel | discriminate]]. }
    destruct (get_quick_response (bump b) user_input).
    + split; [eexists; repeat split | split; [exact Hdel | reflexivity]].
    + split; [eexists; repeat split | split; [exact Hdel | discriminate]].
  - intros Hbelow He Hp reply Hr.
    assert (Hc : (4 <=? exchange_count (bump b)) = false)
      by (cbn [exchange_count bump]; lia).
    now rewrite H, He, Hp, Hr, Hc.
Qed.

(** C10. For a bot as its constructor builds it (any bot whose
    [bought_price] is not zero), [get_quick_response] returns a non-empty
    text for every input; so the guard of [generate_response] on that text
    succeeds, [generate_response] returns what [get_quick_response]
    returns, and the generative model is not called: no prompt is sent. *)
Theorem generate_response_is_quick_response
    (self : ReliableVoiceAssistant) (user_input : string) :
  bought_price (client_data self) <> 0 ->
  (exists text, get_quick_response self user_input = Ok text
                /\ text <> "" /\ truthy text = true)
  /\ forall g,
       generate_response model self user_input g =
         (get_quick_response self user_input, g)
       /\ prompts (snd (generate_response model self user_input g)) = prompts g.
Proof.
  intros Hprice. split.
  - destruct (get_quick_response_result self user_input)
      as [[H0 _] | [_ [text [Hq Ht]]]]; [contradiction |].
    exists text. repeat split; try assumption.
    intros ->. discriminate.
  - intros g. now rewrite generate_response_quick.
Qed.

End WebhookTurn.

(* ===================================================================== *)
(** * twilio_webhook.py: the sessions of a reachable state *)
(* ===================================================================== *)

Section WebhookInvariant.
Import TwilioWebhook.

Variable model : Model.

Lemma webhook_no_session g call_sid SpeechResult :
  sessions g !! call_sid = None ->
  run (TwilioWebhook.process model call_sid SpeechResult) g =
    (Ok call_back_expired, g).
Proof.
  intros Hs.
  unfold run, TwilioWebhook.process, bind at 1, on_globals at 1, get.
  cbn [globals resp]. rewrite Hs. reflexivity.
Qed.

Lemma webhook_empty_later_turn g call_sid SpeechResult sess b :
  sessions g !! call_sid = Some sess ->
  objects g !! bot sess = Some b ->
  truthy (strip (heard_raw SpeechResult)) = false ->
  exchange_count b <> 0 ->
  run (TwilioWebhook.process model call_sid SpeechResult) g =
    (Ok hard_to_hear, without_session g call_sid).
Proof.
  intros Hs Hb Ht Hc.
  unfold run, TwilioWebhook.process, bind at 1, on_globals at 1, get.
  cbn [globals resp]. rewrite Hs. cbv beta iota zeta.
  fold (heard_raw SpeechResult). rewrite Ht. cbn [negb].
  unfold deref, del_session. exec. rewrite Hb.
  destruct (exchange_count b =? 0) eqn:E; [lia |].
  rewrite Hs. reflexivity.
Qed.

Lemma hook_voice_globals now sid g :
  snd (run (voice now sid) g) = hook_stored now sid g.
Proof.
  unfold voice, new_bot, store_session, deref, hook_stored. exec.
  cbn [objects sessions next_ref prompts].
  rewrite lookup_insert_eq. reflexivity.
Qed.

Lemma hook_stored_sound now sid g : sound g -> sound (hook_stored now sid g).
Proof.
  intros [Hbots Hprice]. split.
  - intros sid' s. unfold hook_stored. cbn [sessions objects].
    rewrite lookup_insert. case_decide as Hsid.
    + intros [= <-]. cbn [bot]. rewrite lookup_insert_eq. eauto.
    + intros Hs. apply lookup_insert_is_Some'. right. eapply Hbots; eauto.
  - intros r b. unfold hook_stored. cbn [objects].
    rewrite lookup_insert. case_decide as Hr.
    + intros [= <-]. discriminate.
    + apply Hprice.
Qed.

Lemma without_session_sound sid g : sound g -> sound (without_session g sid).
Proof.
  intros [Hbots Hprice]. split; [| exact Hprice].
  intros sid' s Hs. cbn [without_session sessions objects] in *.
  apply lookup_delete_Some in Hs as [_ Hs]. eapply Hbots; eauto.
Qed.

Lemma bumped_sound r b g :
  objects g !! r = Some b -> sound g -> sound (bumped g r b).
Proof.
  intros Hb [Hbots Hprice]. split.
  - intros sid s Hs. cbn [bumped sessions objects] in *.
    apply lookup_insert_is_Some'. right. eapply Hbots; eauto.
  - intros r' b'. cbn [bumped objects].
    rewrite lookup_insert. case_decide as Hr.
    + intros [= <-]. cbn [bump client_data]. eapply Hprice; eauto.
    + apply Hprice.
Qed.

Lemma hook_process_sound call_sid SpeechResult g :
  sound g ->
  sound (snd (run (TwilioWebhook.process model call_sid SpeechResult) g)).
Proof.
  intros Hsound. pose proof Hsound as [Hbots Hprice].
  destruct (sessions g !! call_sid) as [sess|] eqn:Hs.
  2: { now rewrite (webhook_no_session g call_sid SpeechResult Hs). }
  destruct (Hbots call_sid sess Hs) as [b Hb].
  destruct (truthy (strip (heard_raw SpeechResult))) eqn:Ht.
  - rewrite (webhook_bumped_turn model g call_sid SpeechResult sess b Hs Hb Ht).
    pose proof (bumped_sound (bot sess) b g Hb Hsound) as Hbumped.
    pose proof (without_session_sound call_sid _ Hbumped) as Hgone.
    cbv zeta.
    destruct (any_in exit_phrases _); [exact Hgone |].
    destruct (any_in positive_phrases _); [exact Hgone |].
    destruct (get_quick_response _ _); [| exact Hgone].
    destruct (4 <=? _); [exact Hgone | exact Hbumped].
  - destruct (Z.eq_dec (exchange_count b) 0) as [Hc | Hc].
    + now rewrite (webhook_empty_first_turn model g call_sid SpeechResult sess b
                     Hs Hb Ht Hc).
    + rewrite (webhook_empty_later_turn g call_sid SpeechResult sess b Hs Hb Ht Hc).
      now apply without_session_sound.
Qed.

End WebhookInvariant.

Section WebhookReachable.
Import TwilioWebhook.

Lemma hook_reachable_sound g : hook_reachable g -> sound g.
Proof.
  induction 1 as [| g now sid _ IH | g model sid speech _ IH].
  - split.
    + intros sid s H. cbn [empty_globals sessions] in H.
      rewrite lookup_empty in H. discriminate.
    + intros r b H. cbn [empty_globals objects] in H.
      rewrite lookup_empty in H. discriminate.
  - rewrite hook_voice_globals. now apply hook_stored_sound.
  - now apply hook_process_sound.
Qed.

(** In every state the endpoints can reach, no turn takes the [except]
    branch of [process]: nothing in a turn raises. *)
Lemma hook_turn_raises_nothing model g call_sid SpeechResult :
  hook_reachable g ->
  exists response,
    fst (run (TwilioWebhook.process model call_sid SpeechResult) g) = Ok response
    /\ response <> technical_apology.
Proof.
  intros Hreach. destruct (hook_reachable_sound g Hreach) as [Hbots Hprice].
  destruct (sessions g !! call_sid) as [sess|] eqn:Hs.
  2: { rewrite (webhook_no_session model g call_sid SpeechResult Hs).
       eexists. split; [reflexivity | discriminate]. }
  destruct (Hbots call_sid sess Hs) as [b Hb].
  destruct (truthy (strip (heard_raw SpeechResult))) eqn:Ht.
  - rewrite (webhook_bumped_turn model g call_sid SpeechResult sess b Hs Hb Ht).
    cbv zeta.
    destruct (any_in exit_phrases _);
      [eexists; split; [reflexivity | discriminate] |].
    destruct (any_in positive_phrases _);
      [eexists; split; [reflexivity | discriminate] |].
    destruct (get_quick_response_result (bump b) (heard_raw SpeechResult))
      as [[H0 _] | [_ [text [-> _]]]].
    { exfalso. apply (Hprice _ _ Hb). exact H0. }
    destruct (4 <=? _); eexists; (split; [reflexivity | discriminate]).
  - destruct (Z.eq_dec (exchange_count b) 0) as [Hc | Hc].
    + rewrite (webhook_empty_first_turn model g call_sid SpeechResult sess b
                 Hs Hb Ht Hc).
      eexists. split; [reflexivity | discriminate].
    + rewrite (webhook_empty_later_turn model g call_sid SpeechResult sess b
                 Hs Hb Ht Hc).
      eexists. split; [reflexivity | discriminate].
Qed.

End WebhookReachable.

(* ===================================================================== *)
(** * Both webhooks: errors during a turn *)
(* ===================================================================== *)

(** C7. In [/process] of [main.py] no exception leaves the handler.  When
    the reply generator or the knowledge lookup raises during a turn, the
    exception is caught: the response is the technical-issue line followed
    by a hang-up, the session is removed, and no bot object (so no
    counter) has been changed; a turn changes a counter only when it
    answers with one of the two composed closing replies.  The classifier
    [handle_intents] is a total function and raises nothing.  In
    [/process] of [twilio_webhook.py] nothing raises during a turn in any
    state the endpoints can reach, so its error path is never taken. *)
Theorem collaborator_errors_are_caught :
  (forall cfg env (g : Main.Globals) CallSid SpeechResult sess b,
      Main.get_session cfg CallSid g = (Ok (Some sess), g) ->
      Main.objects g !! Main.bot sess = Some b ->
      truthy (heard SpeechResult) = true ->
      let user_input := heard SpeechResult in
      let intent := Voice2.handle_intents user_input in
      let out := run (Main.process cfg env CallSid SpeechResult) g in
      (exists response, fst out = Ok response)
      /\ (intent <> "strong_confirm" -> intent <> "strong_reject" ->
          Main.run_generate env b user_input intent = Main.Failed
          \/ Main.run_query env user_input 1 = Main.Failed ->
          fst out = Ok technical_issue
          /\ continuation technical_issue = false
          /\ ends_call technical_issue = true
          /\ Main.get_session cfg CallSid (snd out) = (Ok None, snd out)
          /\ Main.objects (snd out) = Main.objects g)
      /\ (Main.objects (snd out) <> Main.objects g ->
          fst out = Ok confirm_closing \/ fst out = Ok reject_closing))
  /\ (forall model (g : TwilioWebhook.Globals) call_sid SpeechResult,
      hook_reachable g ->
      exists response,
        fst (run (TwilioWebhook.process model call_sid SpeechResult) g)
          = Ok response
        /\ response <> technical_apology).
Proof.
  split.
  - intros cfg env g CallSid SpeechResult sess b Hs Hb Ht.
    apply (main_errors_are_caught cfg env g CallSid SpeechResult sess b Hs Hb Ht).
  - intros model g call_sid SpeechResult Hreach.
    now apply hook_turn_raises_nothing.
Qed.

(* ===================================================================== *)
(** * Both webhooks: a blank utterance on a first turn *)
(* ===================================================================== *)

(** C9. An utterance that is empty after trimming, on a session's first
    turn, gets a re-prompt that keeps listening, and leaves the globals
    (the session and every counter of its bot) as they were: in
    [main.py] on any turn, in [twilio_webhook.py] while [exchange_count]
    is still 0. *)
Theorem blank_first_turn_reprompts :
  (forall cfg env (g : Main.Globals) CallSid SpeechResult sess,
      Main.get_session cfg CallSid g = (Ok (Some sess), g) ->
      truthy (strip (default "" SpeechResult)) = false ->
      run (Main.process cfg env CallSid SpeechResult) g = (Ok reprompt, g)
      /\ continuation reprompt = true /\ ends_call reprompt = false)
  /\ (forall model (g : TwilioWebhook.Globals) call_sid SpeechResult sess b,
      TwilioWebhook.sessions g !! call_sid = Some sess ->
      TwilioWebhook.objects g !! TwilioWebhook.bot sess = Some b ->
      TwilioWebhook.exchange_count b = 0 ->
      truthy (strip (default "" SpeechResult)) = false ->
      run (TwilioWebhook.process model call_sid SpeechResult) g
        = (Ok first_reprompt, g)
      /\ continuation first_reprompt = true /\ ends_call first_reprompt = false).
Proof.
  split.
  - intros cfg env g CallSid SpeechResult sess Hs Ht.
    split; [| split; reflexivity].
    apply (process_empty cfg env g CallSid SpeechResult sess Hs).
    unfold heard. now rewrite truthy_lower.
  - intros model g call_sid SpeechResult sess b Hs Hb Hc Ht.
    split; [| split; reflexivity].
    apply (webhook_empty_first_turn model g call_sid SpeechResult sess b Hs Hb);
      [| exact Hc].
    unfold heard_raw. now rewrite strip_lower, truthy_lower.
Qed.

(* ===================================================================== *)
(** * The properties at work *)
(* ===================================================================== *)

Section Witnesses.
Import Voice2 Main.

Lemma started_session_found :
  get_session in_memory test_call call_started = (Ok (Some started_session), call_started).
Proof. vm_compute. reflexivity. Qed.

Lemma started_bot_found :
  objects call_started !! bot started_session = Some caller.
Proof. vm_compute. reflexivity. Qed.



(** A long answer is cut to 297 characters and a period. *)
Lemma composed_reply_is_capped_witness :
  (String.length (compose_reply (Some wordy_reply) None) <= 300)%nat
  /\ compose_reply (Some wordy_reply) None = take 297 wordy_reply ++ "."
  /\ ends_with "." (clean_text_for_tts (compose_reply (Some wordy_reply) None)).
Proof.
  destruct (composed_reply_is_capped in_memory wordy_generator
              call_started test_call test_speech started_session caller
              started_session_found started_bot_found eq_refl
              ltac:(vm_compute; discriminate) ltac:(vm_compute; discriminate)
              ltac:(vm_compute; discriminate) ltac:(vm_compute; discriminate))
    as [_ [Hlen Hlong]].
  split; [exact Hlen |]. apply Hlong.
  apply Nat.ltb_lt. vm_compute. reflexivity.
Defined.

(** "yes I'm interested": the positive closing line, the count raised to
    2, the session gone. *)
Lemma decisive_turn_closes_call_witness :
  let out := run (process in_memory slow_generator test_call (Some "yes I'm interested"))
               call_started in
  fst out = Ok confirm_closing
  /\ confirm_count <$> (objects (snd out) !! 0%nat) = Some 2
  /\ run (process in_memory slow_generator test_call (Some "yes I'm interested")) (snd out)
     = (Ok session_expired, snd out).
Proof.
  intros out.
  destruct (decisive_turn_closes_call in_memory slow_generator
              call_started test_call (Some "yes I'm interested") started_session caller
              started_session_found started_bot_found eq_refl) as [Hconfirm _].
  destruct (Hconfirm eq_refl) as [Hr [Hobj [_ [_ [_ [_ [_ Hnext]]]]]]].
  split; [exact Hr |]. split.
  - exact (f_equal (fmap confirm_count) Hobj).
  - apply Hnext.
Defined.

(** A generator that raises: the technical-issue line, the session gone,
    the bot untouched. *)
Lemma collaborator_errors_are_caught_witness :
  let out := run (process in_memory failing_generator test_call test_speech) call_started in
  fst out = Ok technical_issue
  /\ get_session in_memory test_call (snd out) = (Ok None, snd out)
  /\ objects (snd out) = objects call_started.
Proof.
  intros out.
  destruct collaborator_errors_are_caught as [Hmain _].
  destruct (Hmain in_memory failing_generator
              call_started test_call test_speech started_session caller
              started_session_found started_bot_found eq_refl)
    as [_ [Hcaught _]].
  destruct (Hcaught ltac:(vm_compute; discriminate) ltac:(vm_compute; discriminate)
              (or_introl eq_refl)) as [Hr [_ [_ [Hgone Hobj]]]].
  split; [exact Hr | split; [exact Hgone | exact Hobj]].
Defined.

(** The classifier on four utterances: a confirm keyword alone, a reject
    keyword alone, one of each, and none. *)
Lemma handle_intents_spec_witness :
  handle_intents "Yes I'm interested" = "strong_confirm"
  /\ handle_intents "Please STOP" = "strong_reject"
  /\ handle_intents "not sure" = "strong_confirm"
  /\ handle_intents "Tell me about ROI" = "neutral".
Proof.
  assert (Hin : forall words w s,
            any_in [w] s = true -> In w words ->
            exists w', In w' words /\ occurs_in w' s).
  { intros words w s H Hw. apply any_in_iff in H as [w' [[<- | []] Ho]]. eauto. }
  assert (Hout : forall words s,
            any_in words s = false ->
            ~ exists w, In w words /\ occurs_in w s).
  { intros words s H Hex. apply any_in_iff in Hex. congruence. }
  destruct (handle_intents_spec "Yes I'm interested") as [Hyes _].
  destruct (handle_intents_spec "Please STOP") as [_ [Hstop _]].
  destruct (handle_intents_spec "not sure") as [_ [_ [_ [Hboth _]]]].
  destruct (handle_intents_spec "Tell me about ROI") as [_ [_ [Hnone _]]].
  split; [| split; [| split]].
  - apply Hyes.
    apply (Hin confirm_words "yes"); [reflexivity | simpl; auto].
  - apply Hstop.
    + apply Hout. reflexivity.
    + apply (Hin reject_words "stop"); [reflexivity | simpl; auto].
  - apply Hboth.
    + apply (Hin confirm_words "sure"); [reflexivity | simpl; auto].
    + apply (Hin reject_words "no"); [reflexivity | simpl; auto].
  - apply Hnone; apply Hout; reflexivity.
Defined.

(** A call identifier that was never used, and one whose call has just
    been closed. *)
Lemma absent_session_fails_closed_witness :
  run (process in_memory slow_generator "CA999" test_speech) call_started
    = (Ok session_expired, call_started)
  /\ get_session in_memory test_call (snd (clear_session in_memory test_call call_started))
     = (Ok None, snd (clear_session in_memory test_call call_started)).
Proof.
  destruct (absent_session_fails_closed in_memory slow_generator call_started "CA999")
    as [_ [_ [_ [Habsent _]]]].
  destruct (absent_session_fails_closed in_memory slow_generator call_started test_call)
    as [_ [_ [Hcleared _]]].
  split; [| exact Hcleared].
  apply Habsent. vm_compute. reflexivity.
Defined.

End Witnesses.

Section WebhookWitnesses.
Import TwilioWebhook.

Lemma webhook_session_found :
  sessions after_three_turns !! Some "CA123" = Some webhook_session.
Proof. vm_compute. reflexivity. Qed.

Lemma webhook_bot_found :
  objects after_three_turns !! bot webhook_session = Some (thrice (init (Some "CA123"))).
Proof. vm_compute. reflexivity. Qed.

(** The fourth turn of a call: the count goes from 3 to 4, the generated
    reply gives way to the wrap-up line, the session is removed. *)
Lemma exchange_count_and_ceiling_witness :
  let out := run (TwilioWebhook.process quiet_model (Some "CA123") (Some "Hmm"))
               after_three_turns in
  fst out = Ok wrap_up
  /\ exchange_count <$> (objects (snd out) !! 0%nat) = Some 4
  /\ sessions (snd out) !! Some "CA123" = None.
Proof.
  intros out.
  destruct (exchange_count_and_ceiling quiet_model after_three_turns
              (Some "CA123") (Some "Hmm") webhook_session
              (thrice (init (Some "CA123")))
              webhook_session_found webhook_bot_found eq_refl)
    as [Hobj [_ [Hceil _]]].
  destruct (Hceil ltac:(vm_compute; discriminate)) as [_ [Hgone Hwrap]].
  split; [| split; [exact (f_equal (fmap exchange_count) Hobj) | exact Hgone]].
  eapply Hwrap; [reflexivity | reflexivity | vm_compute; reflexivity].
Defined.

(** The constructor's bot on an input that matches no keyword. *)
Lemma generate_response_is_quick_response_witness :
  generate_response quiet_model (init (Some "CA123")) "hmm" empty_globals =
    (Ok "Based on your excellent 175 percent return, you're clearly a smart investor. The question is - are you ready to potentially double these returns through strategic repositioning?",
     empty_globals).
Proof.
  destruct (generate_response_is_quick_response quiet_model
              (init (Some "CA123")) "hmm" ltac:(vm_compute; discriminate))
    as [_ Hsame].
  destruct (Hsame empty_globals) as [Hrun _].
  rewrite Hrun. vm_compute. reflexivity.
Defined.

(** Silence right after the greeting, on either webhook. *)
Lemma blank_first_turn_reprompts_witness :
  run (Main.process in_memory slow_generator test_call (Some "   ")) call_started
    = (Ok reprompt, call_started)
  /\ run (TwilioWebhook.process quiet_model (Some "CA123") None) webhook_started
     = (Ok first_reprompt, webhook_started).
Proof.
  destruct blank_first_turn_reprompts as [Hmain Hhook].
  split.
  - apply (Hmain in_memory slow_generator call_started test_call (Some "   ")
             started_session started_session_found eq_refl).
  - apply (Hhook quiet_model webhook_started (Some "CA123") None webhook_session
             (init (Some "CA123"))); vm_compute; reflexivity.
Defined.

End WebhookWitnesses.

(* ===================================================================== *)
(** * Where the code departs from the specification's wording *)
(* ===================================================================== *)

Section Departures.
Import Voice2 Main.



(** C4 as first stated does not hold for the text that is spoken.  A
    generator text quoting three prices in AED and the lookup's text make
    287 characters together, so nothing is cut; cleaned for test_speech they
    are 355 characters. *)
Lemma spoken_reply_exceeds_cap :
  exists spoken_text,
    run (process in_memory pricing_generator test_call test_speech) call_started =
      (Ok [Say spoken_text "alice"; listen "What are your thoughts?"],
       call_started)
    /\ String.length
         (combine (Some priced_reply)
            (Some (PropertyRag.query_knowledge_base dummy_rag "tell me about roi" 1)))
       = 287%nat
    /\ String.length spoken_text = 355%nat
    /\ (300 < String.length spoken_text)%nat.
Proof.
  eexists. split; [vm_compute; reflexivity |].
  split; [vm_compute; reflexivity |].
  split; [vm_compute; reflexivity |].
  apply Nat.ltb_lt. vm_compute. reflexivity.
Qed.

(** C6 as first stated does not hold for [/process] of [main.py]: its bot
    has no exchange counter and its turns no ceiling.  Five turns with an
    utterance leave the globals exactly as [/voice] left them, and the
    sixth still speaks the generated reply and keeps listening. *)
Lemma main_process_has_no_ceiling :
  let five_turns :=
    snd (neutral_turn (snd (neutral_turn (snd (neutral_turn
      (snd (neutral_turn (snd (neutral_turn call_started))))))))) in
  five_turns = call_started
  /\ objects five_turns !! 0%nat = Some caller
  /\ exists response,
       neutral_turn five_turns = (Ok response, call_started)
       /\ continuation response = true
       /\ ends_call response = false.
Proof.
  cbv zeta. split; [vm_compute; reflexivity |].
  split; [vm_compute; reflexivity |].
  eexists. split; [vm_compute; reflexivity |].
  split; reflexivity.
Qed.

End Departures.

(* ===================================================================== *)
(** * Further properties of the sources *)
(* ===================================================================== *)

(** ** [str.split], [str.join], [str.replace] *)

Section Words.

Lemma push_word_word (w : string) (ws : list string) :
  truthy w = true -> push_word w ws = w :: ws.
Proof. destruct w; [discriminate | reflexivity]. Qed.

Lemma split_run_words (s : string) :
  has_space (fst (split_run s)) = false
  /\ forallb is_word (snd (split_run s)) = true.
Proof.
  induction s as [|c s [IHw IHws]]; [split; reflexivity |].
  cbn [split_run]. destruct (split_run s) as [w ws]. cbn [fst snd] in *.
  destruct (is_space c) eqn:Ec; cbn [fst snd].
  - split; [reflexivity |]. destruct w as [|a w]; [exact IHws |].
    cbn [push_word forallb]. rewrite IHws, andb_true_r.
    unfold is_word. now rewrite IHw.
  - split; [| exact IHws]. cbn [has_space]. now rewrite Ec, IHw.
Qed.

Lemma split_words (s : string) : forallb is_word (split s) = true.
Proof.
  unfold split. destruct (split_run_words s) as [Hw Hws].
  destruct (split_run s) as [w ws]. cbn [fst snd] in *.
  destruct w as [|a w]; [exact Hws |].
  cbn [push_word forallb]. rewrite Hws, andb_true_r.
  unfold is_word. now rewrite Hw.
Qed.

Lemma split_run_word_app (w rest : string) :
  has_space w = false ->
  split_run (w ++ rest) = (w ++ fst (split_run rest), snd (split_run rest)).
Proof.
  induction w as [|c w IH]; intros Hw.
  - simpl. now destruct (split_run rest).
  - cbn [has_space] in Hw. apply orb_false_elim in Hw as [Hc Hw].
    simpl. rewrite (IH Hw), Hc. reflexivity.
Qed.

Lemma split_run_join (w : string) (ws : list string) :
  forallb is_word (w :: ws) = true ->
  split_run (join " " (w :: ws)) = (w, ws).
Proof.
  revert w. induction ws as [|w2 ws IH]; intros w Hall;
    cbn [forallb] in Hall; apply andb_prop in Hall as [Hw Hws];
    unfold is_word in Hw; apply andb_prop in Hw as [Hne Hsp];
    apply negb_true_iff in Hsp.
  - cbn [join]. rewrite <- (append_nil_r w) at 1.
    rewrite (split_run_word_app w "" Hsp). cbn. now rewrite append_nil_r.
  - change (join " " (w :: w2 :: ws)) with (w ++ " " ++ join " " (w2 :: ws)).
    rewrite (split_run_word_app _ _ Hsp).
    change (" " ++ join " " (w2 :: ws)) with (String " " (join " " (w2 :: ws))).
    cbn [split_run]. rewrite (IH w2 Hws).
    change (is_space " ") with true. cbn [fst snd].
    rewrite append_nil_r. f_equal. apply push_word_word.
    cbn [forallb] in Hws. apply andb_prop in Hws as [Hw2 _].
    unfold is_word in Hw2. now apply andb_prop in Hw2 as [Hw2 _].
Qed.

(** [" ".join(ws).split()] gives the words back. *)
Lemma split_join (ws : list string) :
  forallb is_word ws = true -> split (join " " ws) = ws.
Proof.
  destruct ws as [|w ws]; [reflexivity |]. intros Hall.
  unfold split. rewrite (split_run_join w ws Hall).
  apply push_word_word. cbn [forallb] in Hall.
  apply andb_prop in Hall as [Hw _]. unfold is_word in Hw.
  now apply andb_prop in Hw as [Hw _].
Qed.

Lemma contains_cons (w : string) (c : ascii) (s : string) :
  contains w (String c s) = String.prefix w (String c s) || contains w s.
Proof. reflexivity. Qed.

(** [replace] changes nothing in a text where the word does not occur. *)
Lemma replace_absent (old new s : string) :
  contains old s = false -> replace old new s = s.
Proof.
  unfold replace. induction s as [|c s IH]; intros H.
  - destruct old; [discriminate | reflexivity].
  - rewrite contains_cons in H. apply orb_false_elim in H as [Hp Hc].
    change (replace_from old new 0 (String c s)) with
      (if String.prefix old (String c s)
       then new ++ match String.length old with
                   | O => String c (replace_from old new 0 s)
                   | S k => replace_from old new k s
                   end
       else String c (replace_from old new 0 s)).
    rewrite Hp. now rewrite (IH Hc).
Qed.

End Words.

(** ** The cleaning functions *)

Section Cleaning.

Lemma has_char_append (c : ascii) (a b : string) :
  has_char c (a ++ b) = has_char c a || has_char c b.
Proof.
  induction a as [|x a IH]; [reflexivity |].
  simpl. now rewrite IH, orb_assoc.
Qed.

Lemma occurs_in_char (c : ascii) (s : string) :
  occurs_in (String c "") s -> has_char c s = true.
Proof.
  intros [a [z ->]]. rewrite has_char_append. simpl.
  rewrite Ascii.eqb_refl. now rewrite orb_true_r.
Qed.

(** [replace] brings in no character that is neither in the text nor in
    the replacement. *)
Lemma replace_from_no_char (c : ascii) (old new : string) (k : nat) (s : string) :
  has_char c new = false -> has_char c s = false ->
  has_char c (replace_from old new k s) = false.
Proof.
  intros Hnew. revert k. induction s as [|a s IH]; intros k Hs.
  - simpl. destruct k, old; auto.
  - cbn [has_char] in Hs. apply orb_false_elim in Hs as [Ha Hs].
    destruct k as [|k]; [| now apply IH].
    cbn [replace_from].
    destruct (String.prefix old (String a s)).
    + rewrite has_char_append, Hnew. cbn [orb].
      destruct (String.length old); [| now apply IH].
      cbn [has_char]. now rewrite Ha, IH.
    + cbn [has_char]. now rewrite Ha, IH.
Qed.

(** Replacing a character leaves none of it, when the replacement has
    none. *)
Lemma replace_char_gone (c : ascii) (new s : string) :
  has_char c new = false ->
  has_char c (replace (String c "") new s) = false.
Proof.
  intros Hnew. unfold replace. induction s as [|a s IH]; [reflexivity |].
  cbn [replace_from String.prefix String.length].
  destruct (Ascii.eqb c a) eqn:E.
  - apply Ascii.eqb_eq in E. subst a.
    destruct (ascii_dec c c) as [_ | Hn]; [| contradiction].
    assert (Hp : String.prefix "" s = true) by now destruct s.
    rewrite Hp, has_char_append, Hnew. exact IH.
  - destruct (ascii_dec c a) as [-> | _].
    + rewrite Ascii.eqb_refl in E. discriminate.
    + cbn [has_char]. now rewrite E.
Qed.

(** *** Blank and non-blank text *)

Lemma has_text_append (a b : string) :
  has_text (a ++ b) = has_text a || has_text b.
Proof.
  induction a as [|x a IH]; [reflexivity |].
  simpl. now rewrite IH, orb_assoc.
Qed.

Lemma lstrip_text (s : string) : has_text (lstrip s) = has_text s.
Proof.
  induction s as [|c s IH]; [reflexivity |].
  cbn [lstrip]. destruct (is_space c) eqn:E; cbn [has_text]; rewrite E;
    [exact IH | reflexivity].
Qed.

Lemma rstrip_truthy (s : string) : has_text s = true -> truthy (rstrip s) = true.
Proof.
  induction s as [|c s IH]; [discriminate |].
  cbn [has_text rstrip]. intros H.
  destruct (rstrip s) as [|a r]; [| reflexivity].
  destruct (is_space c); [| reflexivity].
  cbn [negb orb] in H. now apply IH.
Qed.

(** A text in which a non-blank phrase occurs is not blank. *)
Lemma occurs_in_not_blank (w s : string) :
  has_text w = true -> occurs_in w s -> truthy (strip s) = true.
Proof.
  intros Hw [a [z ->]]. unfold strip. apply rstrip_truthy.
  rewrite lstrip_text, !has_text_append, Hw. now rewrite orb_true_r.
Qed.

(** *** [clean_for_speech] *)

Lemma replacements_absent (rs : list (string * string)) (text : string) :
  (forall r, In r rs -> ~ occurs_in (fst r) text) ->
  fold_left (fun text r => replace (fst r) (snd r) text) rs text = text.
Proof.
  induction rs as [|r rs IH]; intros H; [reflexivity |].
  cbn [fold_left]. rewrite replace_absent.
  - apply IH. intros r' Hr'. apply H. now right.
  - destruct (contains (fst r) text) eqn:E; [| reflexivity].
    apply contains_iff in E. exfalso. apply (H r); [now left | exact E].
Qed.

(** X11. [clean_for_speech] returns unchanged a text in which none of the
    nine keys of its replacement table occurs. *)
Theorem clean_for_speech_leaves_other_text (text : string) :
  (forall old new, In (old, new) TwilioWebhook.replacements -> ~ occurs_in old text) ->
  TwilioWebhook.clean_for_speech text = text.
Proof.
  intros H. unfold TwilioWebhook.clean_for_speech. apply replacements_absent.
  intros [old new] Hin. exact (H old new Hin).
Qed.

(** X12. Whatever the text, [clean_for_speech] leaves no percent sign and
    no ampersand in it: each is spelled out, and the replacements applied
    after it bring none back. *)
Theorem clean_for_speech_spells_out_symbols (text : string) :
  ~ occurs_in "%" (TwilioWebhook.clean_for_speech text)
  /\ ~ occurs_in "&" (TwilioWebhook.clean_for_speech text).
Proof.
  unfold TwilioWebhook.clean_for_speech, TwilioWebhook.replacements.
  cbn [fold_left fst snd].
  match goal with
  | |- context [replace "%" " percent" ?t] => generalize t
  end.
  intros t. split; intros H; apply occurs_in_char in H.
  - unfold replace at 1 2 in H.
    rewrite replace_from_no_char in H; [discriminate | reflexivity |].
    apply replace_from_no_char; [reflexivity |].
    now apply replace_char_gone.
  - unfold replace at 1 in H.
    rewrite replace_from_no_char in H; [discriminate | reflexivity |].
    now apply replace_char_gone.
Qed.

(** *** [clean_text_for_tts] *)

(** X9. The words of [clean_text_for_tts text] are the words of the text
    after the two replacements, and splitting the result into words and
    joining them with one space gives the result back: it has no leading,
    trailing or repeated whitespace. *)
Theorem cleaned_text_is_single_spaced (text : string) :
  let replaced :=
    replace "ROI" "return on investment"
      (replace "AED" "Arab Emirates Dirham" text) in
  let out := Main.clean_text_for_tts text in
  split out = split replaced
  /\ forallb is_word (split out) = true
  /\ join " " (split out) = out.
Proof.
  cbv zeta. unfold Main.clean_text_for_tts.
  rewrite split_join by apply split_words.
  split; [reflexivity |]. split; [apply split_words | reflexivity].
Qed.

(** X10. [clean_text_for_tts] returns unchanged a text made of words
    separated by single spaces in which neither [AED] nor [ROI] occurs. *)
Theorem clean_text_for_tts_fixed (ws : list string) :
  forallb is_word ws = true ->
  ~ occurs_in "AED" (join " " ws) ->
  ~ occurs_in "ROI" (join " " ws) ->
  Main.clean_text_for_tts (join " " ws) = join " " ws.
Proof.
  intros Hws Ha Hr. unfold Main.clean_text_for_tts.
  assert (absent : forall w s, ~ occurs_in w s -> contains w s = false).
  { intros w s H. destruct (contains w s) eqn:E; [| reflexivity].
    apply contains_iff in E. contradiction. }
  rewrite (replace_absent "AED") by now apply absent.
  rewrite (replace_absent "ROI") by now apply absent.
  now rewrite split_join.
Qed.

End Cleaning.

(** ** main.py: the session store and the calls *)

Section MainStore.
Import Voice2 Main.
Variable cfg : Config.

Lemma redis_key_inj (a b : string) : redis_key a = redis_key b -> a = b.
Proof. unfold redis_key. intros H. now inversion H. Qed.

Lemma set_session_globals now sid r g :
  set_session cfg now sid r g = (Ok tt, session_set cfg now sid r g).
Proof.
  unfold set_session, session_set. exec. now destruct (redis_on cfg).
Qed.

Lemma clear_session_redis sid g :
  redis (snd (clear_session cfg sid g)) =
    if redis_on cfg then delete (redis_key sid) (redis g) else redis g.
Proof.
  unfold clear_session. exec.
  destruct (redis_on cfg); cbn [_sessions];
    destruct (_sessions g !! sid); reflexivity.
Qed.

(** The result of [get_session], from the two stores. *)
Lemma get_session_result sid g :
  fst (get_session cfg sid g) =
    Ok (if redis_on cfg
        then match redis g !! redis_key sid with
             | Some _ => _sessions g !! sid
             | None => None
             end
        else _sessions g !! sid).
Proof.
  unfold get_session. exec.
  destruct (redis_on cfg); [destruct (redis g !! redis_key sid)|]; reflexivity.
Qed.

(** X1. The session helpers of [main.py], with or without Redis:
    [get_session] after [set_session] finds the session that was stored,
    [get_session] after [clear_session] finds none, neither touches a bot
    object, and neither changes what [get_session] returns for another
    call. *)
Theorem session_store_round_trip now sid r g :
  let g1 := snd (set_session cfg now sid r g) in
  let g0 := snd (clear_session cfg sid g) in
  get_session cfg sid g1 = (Ok (Some {| bot := r; start_time := now |}), g1)
  /\ get_session cfg sid (snd (clear_session cfg sid g1))
     = (Ok None, snd (clear_session cfg sid g1))
  /\ objects g1 = objects g
  /\ objects g0 = objects g
  /\ forall sid', sid' <> sid ->
       fst (get_session cfg sid' g1) = fst (get_session cfg sid' g)
       /\ fst (get_session cfg sid' g0) = fst (get_session cfg sid' g).
Proof.
  intros g1 g0. subst g1 g0. rewrite set_session_globals. cbn [snd].
  split; [| split; [| split; [| split]]].
  - unfold get_session, session_set. exec. cbn [_sessions redis].
    destruct (redis_on cfg); rewrite ?lookup_insert_eq; reflexivity.
  - apply get_session_absent, clear_session_gone.
  - reflexivity.
  - apply clear_session_objects.
  - intros sid' Hne. rewrite !get_session_result.
    rewrite clear_session_sessions, clear_session_redis.
    unfold session_set. cbn [_sessions redis].
    assert (Hk : redis_key sid <> redis_key sid')
      by (intros Hk; apply Hne; symmetry; now apply redis_key_inj).
    destruct (redis_on cfg);
      rewrite ?lookup_insert_ne, ?lookup_delete_ne by congruence; auto.
Qed.

Lemma voice_runs now sid g :
  run (voice cfg now sid) g = (Ok greeting, stored cfg now sid g).
Proof.
  unfold voice, new_bot, set_session, deref, stored. exec.
  destruct (redis_on cfg); cbn [objects _sessions redis next_ref];
    rewrite lookup_insert_eq; reflexivity.
Qed.

End MainStore.

Section MainCases.
Import Voice2 Main.
Variable cfg : Config.
Variable env : Collaborators.

(** The six outcomes of a turn. *)
Lemma process_cases g sid speech :
  sessions_have_bots g ->
  let out := run (process cfg env sid speech) g in
  (fst (get_session cfg sid g) = Ok None /\ out = (Ok session_expired, g))
  \/ exists sess b,
       _sessions g !! sid = Some sess
       /\ objects g !! bot sess = Some b
       /\ (out = (Ok reprompt, g)
           \/ out = (Ok confirm_closing,
                     snd (clear_session cfg sid
                            (with_object g (bot sess) (confirmed_more b))))
           \/ out = (Ok reject_closing,
                     snd (clear_session cfg sid
                            (with_object g (bot sess) (rejected_more b))))
           \/ out = (Ok technical_issue, snd (clear_session cfg sid g))
           \/ exists text,
                out = (Ok [Say text "alice"; listen "What are your thoughts?"], g)).
Proof.
  intros Hwf out. subst out.
  destruct (get_session_returns cfg g sid) as [[sess|] Hs].
  2: { left. rewrite Hs. split; [reflexivity |]. now apply process_no_session. }
  right. pose proof (get_session_found cfg g sid sess Hs) as Hfound.
  destruct (Hwf sid sess Hfound) as [b Hb].
  exists sess, b. split; [exact Hfound |]. split; [exact Hb |].
  destruct (truthy (heard speech)) eqn:Ht.
  2: { left. now apply (process_empty cfg env g sid speech sess). }
  right.
  destruct (handle_intents_closed (heard speech)) as [Hi|[Hi|[Hi|[]]]];
    symmetry in Hi.
  - left. now apply process_confirm.
  - right. left. now apply process_reject.
  - right. right.
    destruct (outcome_failed_dec (run_generate env b (heard speech) "neutral"))
      as [Hg | Hg].
    { left. now apply (process_neutral_failed cfg env g sid speech sess b);
        [.. | left]. }
    destruct (outcome_failed_dec (run_query env (heard speech) 1)) as [Hq | Hq].
    { left. now apply (process_neutral_failed cfg env g sid speech sess b);
        [.. | right]. }
    right. eexists.
    now apply (process_neutral_ok cfg env g sid speech sess b).
Qed.

(** X3. When every session has its bot, [/process] of [main.py] returns a
    response (it never raises) that either asks for more speech or hangs
    up, never both and never neither; when it asks for more speech the
    globals are unchanged, and when it hangs up [get_session] finds no
    session for the call any more. *)
Theorem response_matches_session g sid speech :
  sessions_have_bots g ->
  exists response g',
    run (process cfg env sid speech) g = (Ok response, g')
    /\ continuation response = negb (ends_call response)
    /\ (continuation response = true -> g' = g)
    /\ (ends_call response = true -> get_session cfg sid g' = (Ok None, g')).
Proof.
  intros Hwf.
  destruct (process_cases g sid speech Hwf)
    as [[Hn ->] | [sess [b [Hs [Hb [-> | [-> | [-> | [-> | [text ->]]]]]]]]]];
    do 2 eexists; (split; [reflexivity |]); (split; [reflexivity |]);
    (split; [try reflexivity; discriminate |]); intros He;
    try discriminate;
    try (apply get_session_absent, clear_session_gone).
  destruct (get_session_returns cfg g sid) as [o Ho].
  rewrite Ho in Hn. cbn [fst] in Hn. inversion Hn. now subst o.
Qed.

(** *** Calls are kept apart *)

Lemma stored_apart now sid g : calls_apart g -> calls_apart (stored cfg now sid g).
Proof.
  intros [Hlt Hinj]. split.
  - intros sid' s. unfold stored. cbn [_sessions next_ref].
    rewrite lookup_insert. case_decide.
    + intros [= <-]. cbn [bot]. lia.
    + intros Hs. specialize (Hlt _ _ Hs). lia.
  - intros sid1 sid2 s1 s2 Hne. unfold stored. cbn [_sessions].
    rewrite !lookup_insert. repeat case_decide; subst.
    + congruence.
    + intros [= <-] H2. cbn [bot]. specialize (Hlt _ _ H2). lia.
    + intros H1 [= <-]. cbn [bot]. specialize (Hlt _ _ H1). lia.
    + now apply Hinj.
Qed.

Lemma cleared_apart sid g :
  calls_apart g -> calls_apart (snd (clear_session cfg sid g)).
Proof.
  intros [Hlt Hinj].
  assert (Hn : next_ref (snd (clear_session cfg sid g)) = next_ref g).
  { unfold clear_session. exec.
    destruct (redis_on cfg); cbn [_sessions];
      destruct (_sessions g !! sid); reflexivity. }
  split.
  - intros sid' s. rewrite clear_session_sessions, Hn.
    intros Hs. apply lookup_delete_Some in Hs as [_ Hs]. eauto.
  - intros sid1 sid2 s1 s2 Hne. rewrite clear_session_sessions.
    intros H1 H2. apply lookup_delete_Some in H1 as [_ H1].
    apply lookup_delete_Some in H2 as [_ H2]. eauto.
Qed.

Lemma with_object_apart r b g : calls_apart g -> calls_apart (with_object g r b).
Proof. intros H. exact H. Qed.

Lemma process_apart sid speech g :
  sessions_have_bots g -> calls_apart g ->
  calls_apart (snd (run (process cfg env sid speech) g)).
Proof.
  intros Hwf Hap.
  destruct (process_cases g sid speech Hwf)
    as [[Hn ->] | [sess [b [Hs [Hb [-> | [-> | [-> | [-> | [text ->]]]]]]]]]];
    cbn [snd]; auto using cleared_apart, with_object_apart.
Qed.

(** What a turn leaves of another call. *)
Lemma process_other_call sid speech g sid' s' :
  sessions_have_bots g -> calls_apart g ->
  sid' <> sid -> _sessions g !! sid' = Some s' ->
  let g' := snd (run (process cfg env sid speech) g) in
  _sessions g' !! sid' = Some s'
  /\ fst (get_session cfg sid' g') = fst (get_session cfg sid' g)
  /\ objects g' !! bot s' = objects g !! bot s'.
Proof.
  intros Hwf [Hlt Hinj] Hne Hs'.
  assert (Hk : redis_key sid <> redis_key sid')
    by (intros Hk; apply Hne; symmetry; now apply redis_key_inj).
  assert (Hclear : forall g0,
            _sessions g0 = _sessions g -> redis g0 = redis g ->
            _sessions (snd (clear_session cfg sid g0)) !! sid' = Some s'
            /\ fst (get_session cfg sid' (snd (clear_session cfg sid g0)))
               = fst (get_session cfg sid' g)).
  { intros g0 Hsess Hred. rewrite !get_session_result.
    rewrite clear_session_sessions, clear_session_redis, Hsess, Hred.
    rewrite lookup_delete_ne by congruence. split; [exact Hs' |].
    destruct (redis_on cfg); rewrite ?lookup_delete_ne by congruence; auto. }
  destruct (process_cases g sid speech Hwf)
    as [[Hn ->] | [sess [b [Hs [Hb [-> | [-> | [-> | [-> | [text ->]]]]]]]]]];
    cbn [snd]; try (now repeat split).
  - destruct (Hclear (with_object g (bot sess) (confirmed_more b)) eq_refl eq_refl)
      as [H1 H2].
    split; [exact H1 | split; [exact H2 |]].
    rewrite clear_session_objects. unfold with_object. cbn [objects].
    apply lookup_insert_ne. apply (Hinj sid sid' sess s'); auto.
  - destruct (Hclear (with_object g (bot sess) (rejected_more b)) eq_refl eq_refl)
      as [H1 H2].
    split; [exact H1 | split; [exact H2 |]].
    rewrite clear_session_objects. unfold with_object. cbn [objects].
    apply lookup_insert_ne. apply (Hinj sid sid' sess s'); auto.
  - destruct (Hclear g eq_refl eq_refl) as [H1 H2].
    split; [exact H1 | split; [exact H2 |]].
    now rewrite clear_session_objects.
Qed.

Lemma voice_other_call now sid g sid' s' :
  calls_apart g -> sid' <> sid -> _sessions g !! sid' = Some s' ->
  let g' := snd (run (voice cfg now sid) g) in
  _sessions g' !! sid' = Some s'
  /\ fst (get_session cfg sid' g') = fst (get_session cfg sid' g)
  /\ objects g' !! bot s' = objects g !! bot s'.
Proof.
  intros [Hlt Hinj] Hne Hs'. cbv zeta. rewrite voice_globals.
  assert (Hk : redis_key sid <> redis_key sid')
    by (intros Hk; apply Hne; symmetry; now apply redis_key_inj).
  rewrite !get_session_result. unfold stored. cbn [_sessions redis objects].
  rewrite lookup_insert_ne by congruence.
  split; [exact Hs' |]. split.
  - destruct (redis_on cfg); rewrite ?lookup_insert_ne by congruence; auto.
  - apply lookup_insert_ne. specialize (Hlt _ _ Hs'). lia.
Qed.

End MainCases.

Section MainReach.
Import Voice2 Main.
Variable cfg : Config.

Lemma reachable_apart g : reachable cfg g -> calls_apart g.
Proof.
  induction 1 as [| g now sid Hr IH | g env sid speech Hr IH].
  - split.
    + intros sid s H. cbn [empty_globals _sessions] in H.
      rewrite lookup_empty in H. discriminate.
    + intros sid1 sid2 s1 s2 _ H. cbn [empty_globals _sessions] in H.
      rewrite lookup_empty in H. discriminate.
  - rewrite voice_globals. now apply stored_apart.
  - apply process_apart; [now apply (reachable_has_bots cfg) | exact IH].
Qed.

(** X4. In every state the endpoints of [main.py] can reach, a request
    for one call ([/process] or [/voice]) leaves the session of every
    other call, what [get_session] returns for it, and its bot object as
    they were. *)
Theorem calls_do_not_interfere g sid' s' :
  reachable cfg g -> _sessions g !! sid' = Some s' ->
  forall sid, sid <> sid' ->
    (forall env speech,
        let g' := snd (run (process cfg env sid speech) g) in
        _sessions g' !! sid' = Some s'
        /\ fst (get_session cfg sid' g') = fst (get_session cfg sid' g)
        /\ objects g' !! bot s' = objects g !! bot s')
    /\ (forall now,
        let g' := snd (run (voice cfg now sid) g) in
        _sessions g' !! sid' = Some s'
        /\ fst (get_session cfg sid' g') = fst (get_session cfg sid' g)
        /\ objects g' !! bot s' = objects g !! bot s').
Proof.
  intros Hr Hs' sid Hne. split.
  - intros env speech.
    apply process_other_call; auto using reachable_apart.
    now apply (reachable_has_bots cfg).
  - intros now. apply voice_other_call; auto using reachable_apart.
Qed.

End MainReach.

Section MainEndpoints.
Import Voice2 Main PropertyRag.

Variable cfg : Config.

(** X2. [/voice] of [main.py] never raises: it answers with the greeting
    (a 40.0 percent return on 400,000 dirhams, computed from the
    constructor's prices), creates a new bot object for the call and
    stores a session that [get_session] finds; the other objects are
    untouched. *)
Theorem voice_opens_session now sid g :
  let g1 := snd (run (voice cfg now sid) g) in
  fst (run (voice cfg now sid) g) = Ok greeting
  /\ get_session cfg sid g1
     = (Ok (Some {| bot := next_ref g; start_time := now |}), g1)
  /\ objects g1 !! next_ref g = Some (Voice2.init sid)
  /\ (forall r, r <> next_ref g -> objects g1 !! r = objects g !! r)
  /\ next_ref g1 = S (next_ref g).
Proof.
  cbv zeta. rewrite voice_runs. cbn [fst snd].
  split; [reflexivity |]. split; [| split; [| split]].
  - unfold get_session, stored. exec. cbn [_sessions redis].
    destruct (redis_on cfg); rewrite ?lookup_insert_eq; reflexivity.
  - apply lookup_insert_eq.
  - intros r Hr. unfold stored. cbn [objects]. now apply lookup_insert_ne.
  - reflexivity.
Qed.

Lemma size_delete_present {A} (m : gmap string A) (i : string) (x : A) :
  m !! i = Some x -> size m = S (size (delete i m)).
Proof.
  intros H. rewrite <- (insert_delete_id m i x H) at 1.
  apply map_size_insert_None, lookup_delete_eq.
Qed.

(** X5. The [active_sessions] figure of [/health]: [/voice] raises it by
    one for a call that has no session and leaves it for one that has; a
    turn of [/process] that keeps listening leaves it, one that answers
    "session expired" leaves it, and every other turn that hangs up lowers
    it by one. *)
Theorem health_counts_open_calls (env : Collaborators) now sid speech g :
  active_sessions (health (snd (run (voice cfg now sid) g)))
    = match _sessions g !! sid with
      | Some _ => active_sessions (health g)
      | None => active_sessions (health g) + 1
      end
  /\ (sessions_have_bots g ->
      exists response g',
        run (process cfg env sid speech) g = (Ok response, g')
        /\ (continuation response = true ->
            active_sessions (health g') = active_sessions (health g))
        /\ (response = session_expired ->
            active_sessions (health g') = active_sessions (health g))
        /\ (ends_call response = true -> response <> session_expired ->
            active_sessions (health g') = active_sessions (health g) - 1)).
Proof.
  split.
  - rewrite voice_globals. unfold health, stored. cbn [active_sessions _sessions].
    rewrite map_size_insert. destruct (_sessions g !! sid); simpl; lia.
  - intros Hwf.
    assert (Hclosed : forall g0 sess,
              _sessions g0 = _sessions g -> _sessions g !! sid = Some sess ->
              active_sessions (health (snd (clear_session cfg sid g0)))
              = active_sessions (health g) - 1).
    { intros g0 sess Hg0 Hs. unfold health. cbn [active_sessions].
      rewrite clear_session_sessions, Hg0.
      rewrite (size_delete_present _ _ _ Hs). lia. }
    destruct (process_cases cfg env g sid speech Hwf)
      as [[Hn ->] | [sess [b [Hs [Hb [-> | [-> | [-> | [-> | [text ->]]]]]]]]]];
      do 2 eexists; (split; [reflexivity |]);
      (split; [try reflexivity; discriminate |]);
      (split; [try reflexivity; discriminate |]); intros He Hx;
      try discriminate; try congruence;
      eapply Hclosed; eauto.
Qed.

(** X6. With the repository's own collaborators answering in time
    ([generate_fast_response] of [voice2.py] and [query_knowledge_base] of
    [property_rag.py]), a neutral turn for a bot located in Dubai speaks
    one of two fixed sentences, by whether the lookup has embeddings, with
    [ROI] spelled out, keeps listening and changes nothing. *)
Theorem shipped_collaborators_reply (rag : RealEstateRAG) g sid speech sess b :
  get_session cfg sid g = (Ok (Some sess), g) ->
  objects g !! bot sess = Some b ->
  location (client_data b) = "Dubai" ->
  truthy (heard speech) = true ->
  handle_intents (heard speech) = "neutral" ->
  run (process cfg (prompt_collaborators rag) sid speech) g =
    (Ok [Say (if embeddings rag
              then "Thanks for sharing. Could you tell me more about your preferences in Dubai? Real RAG search results would be returned here."
              else "Thanks for sharing. Could you tell me more about your preferences in Dubai? Based on Dubai market trends, properties have shown steady return on investment growth.")
             "alice";
         listen "What are your thoughts?"], g).
Proof.
  intros Hs Hb Hloc Ht Hi.
  rewrite (process_neutral_ok cfg (prompt_collaborators rag) g sid speech sess b
             Hs Hb Ht Hi); [| discriminate | discriminate].
  cbn [prompt_collaborators run_generate run_query awaited].
  unfold generate_fast_response, query_knowledge_base. rewrite Hloc.
  destruct (embeddings rag); reflexivity.
Qed.

End MainEndpoints.

Section ClassifierUse.
Import Voice2.

Lemma occurs_in_part (w pre post s : string) :
  occurs_in (pre ++ w ++ post) s -> occurs_in w s.
Proof.
  intros [a [z ->]]. exists (a ++ pre), (post ++ z).
  now rewrite !append_assoc.
Qed.

(** X7. The reject keyword [not interested] never decides: a text in
    which it occurs has the confirm keyword [interested], so
    [handle_intents] answers [strong_confirm]; a caller of [main.py] who
    says it is answered with the confirmation closing, the bot's
    [confirm_count] raised by 2 and the session cleared. *)
Theorem not_interested_is_taken_as_consent
    (cfg : Main.Config) (env : Main.Collaborators) g sid speech sess b :
  Main.get_session cfg sid g = (Ok (Some sess), g) ->
  Main.objects g !! Main.bot sess = Some b ->
  occurs_in "not interested" (heard speech) ->
  (forall text, occurs_in "not interested" (lower text) ->
     handle_intents text = "strong_confirm")
  /\ run (Main.process cfg env sid speech) g =
       (Ok confirm_closing,
        snd (Main.clear_session cfg sid
               (with_object g (Main.bot sess) (confirmed_more b)))).
Proof.
  intros Hs Hb Hocc.
  assert (Hclass : forall text, occurs_in "not interested" (lower text) ->
            handle_intents text = "strong_confirm").
  { intros text H. unfold handle_intents.
    assert (Hc : any_in confirm_words (lower text) = true).
    { apply any_in_iff. exists "interested". split; [simpl; auto |].
      apply (occurs_in_part "interested" "not " "" (lower text)). exact H. }
    now rewrite Hc. }
  split; [exact Hclass |].
  apply process_confirm; auto.
  - destruct Hocc as [pre [post E]]. rewrite E. now destruct pre.
  - apply Hclass. now apply occurs_in_lower.
Qed.

(** X8. [generate_fast_response] on an intent that [handle_intents]
    produced: its last branch ("I see. Let's continue our conversation.")
    is never taken, the reply is never empty, and it is the sentence of
    the intent. *)
Theorem fast_response_follows_intent
    (self : OptimizedVoiceAssistant) (user_input text : string) :
  let intent := handle_intents text in
  let reply := generate_fast_response self user_input intent in
  reply <> "I see. Let's continue our conversation."
  /\ truthy reply = true
  /\ (intent = "neutral" ->
      reply = "Thanks for sharing. Could you tell me more about your preferences in "
                ++ location (client_data self) ++ "?")
  /\ (intent = "strong_confirm" ->
      reply = "Perfect. I’ll prepare the next steps right away.")
  /\ (intent = "strong_reject" ->
      reply = "Understood. I’ll close this discussion.").
Proof.
  cbv zeta.
  destruct (handle_intents_closed text) as [Hi|[Hi|[Hi|[]]]]; rewrite <- Hi;
    repeat split; try discriminate; reflexivity.
Qed.

End ClassifierUse.

(** ** twilio_webhook.py: the conversation *)

Section HookCases.
Import TwilioWebhook.
Variable model : Model.

Lemma hook_cases g sid speech :
  (forall s, sessions g !! sid = Some s -> is_Some (objects g !! bot s)) ->
  let out := run (TwilioWebhook.process model sid speech) g in
  let user_input := heard_raw speech in
  (sessions g !! sid = None /\ out = (Ok call_back_expired, g))
  \/ exists sess b,
       sessions g !! sid = Some sess
       /\ objects g !! bot sess = Some b
       /\ let g1 := bumped g (bot sess) b in
          (exchange_count b = 0 /\ out = (Ok first_reprompt, g))
          \/ (exchange_count b <> 0
              /\ out = (Ok hard_to_hear, without_session g sid))
          \/ (exists closing,
                In closing [removed_from_list; advisor_follow_up; wrap_up;
                            technical_apology]
                /\ out = (Ok closing, without_session g1 sid))
          \/ (exchange_count b + 1 < 4
              /\ exists reply,
                   get_quick_response (bump b) user_input = Ok reply
                   /\ out = (Ok [Say (clean_for_speech reply) "alice";
                                 TwilioWebhook.listen "What do you think?"], g1)).
Proof.
  intros Hbots out user_input. subst out.
  destruct (sessions g !! sid) as [sess|] eqn:Hs.
  2: { left. split; [reflexivity |]. now apply webhook_no_session. }
  right. destruct (Hbots sess eq_refl) as [b Hb].
  exists sess, b. split; [reflexivity |]. split; [exact Hb |]. cbv zeta.
  destruct (truthy (strip (heard_raw speech))) eqn:Ht.
  - rewrite (webhook_bumped_turn model g sid speech sess b Hs Hb Ht). cbv zeta.
    fold user_input.
    destruct (any_in exit_phrases user_input).
    { right. right. left. eexists. split; [| reflexivity]. simpl; auto. }
    destruct (any_in positive_phrases user_input).
    { right. right. left. eexists. split; [| reflexivity]. simpl; auto. }
    destruct (get_quick_response (bump b) user_input) as [reply | e] eqn:Eq.
    2: { right. right. left. eexists. split; [| reflexivity]. simpl; auto. }
    destruct (4 <=? exchange_count (bump b)) eqn:E4.
    { right. right. left. eexists. split; [| reflexivity]. simpl; auto. }
    right. right. right. cbn [bump exchange_count] in E4.
    split; [lia |]. exists reply. split; reflexivity.
  - destruct (Z.eq_dec (exchange_count b) 0) as [Hc | Hc].
    + left. split; [exact Hc |].
      now apply (webhook_empty_first_turn model g sid speech sess b).
    + right. left. split; [exact Hc |].
      now apply (webhook_empty_later_turn model g sid speech sess b).
Qed.

Lemma orderly_bots g :
  orderly g -> forall sid s, sessions g !! sid = Some s -> is_Some (objects g !! bot s).
Proof.
  intros [_ [_ [H _]]] sid s Hs. destruct (H sid s Hs) as [b [Hb _]]. eauto.
Qed.

Lemma hook_stored_orderly now sid g : orderly g -> orderly (hook_stored now sid g).
Proof.
  intros [Hlt [Hinj [Hcount Hdata]]]. unfold hook_stored.
  split; [| split; [| split]]; cbn [sessions objects next_ref].
  - intros sid' s. rewrite lookup_insert. case_decide.
    + intros [= <-]. cbn [bot]. lia.
    + intros Hs. specialize (Hlt _ _ Hs). lia.
  - intros sid1 sid2 s1 s2 Hne. rewrite !lookup_insert.
    repeat case_decide; subst.
    + congruence.
    + intros [= <-] H2. cbn [bot]. specialize (Hlt _ _ H2). lia.
    + intros H1 [= <-]. cbn [bot]. specialize (Hlt _ _ H1). lia.
    + now apply Hinj.
  - intros sid' s. rewrite lookup_insert. case_decide.
    + intros [= <-]. cbn [bot]. rewrite lookup_insert_eq.
      eexists. split; [reflexivity |]. cbn. lia.
    + intros Hs. destruct (Hcount _ _ Hs) as [b [Hb Hr]].
      exists b. split; [| exact Hr].
      rewrite lookup_insert_ne; [exact Hb |]. specialize (Hlt _ _ Hs). lia.
  - intros r b. rewrite lookup_insert. case_decide.
    + intros [= <-]. reflexivity.
    + apply Hdata.
Qed.

Lemma without_session_orderly sid g : orderly g -> orderly (without_session g sid).
Proof.
  intros [Hlt [Hinj [Hcount Hdata]]]. unfold without_session.
  split; [| split; [| split]]; cbn [sessions objects next_ref].
  - intros sid' s Hs. apply lookup_delete_Some in Hs as [_ Hs]. eauto.
  - intros sid1 sid2 s1 s2 Hne H1 H2.
    apply lookup_delete_Some in H1 as [_ H1].
    apply lookup_delete_Some in H2 as [_ H2]. eauto.
  - intros sid' s Hs. apply lookup_delete_Some in Hs as [_ Hs]. eauto.
  - exact Hdata.
Qed.

(** After the bump, the other calls are as orderly as before; the bumped
    call is, once it is closed or while its count stays below 4. *)
Lemma bumped_closed_orderly sid sess b g :
  orderly g -> sessions g !! sid = Some sess -> objects g !! bot sess = Some b ->
  orderly (without_session (bumped g (bot sess) b) sid).
Proof.
  intros [Hlt [Hinj [Hcount Hdata]]] Hs Hb. unfold without_session, bumped.
  split; [| split; [| split]]; cbn [sessions objects next_ref].
  - intros sid' s H. apply lookup_delete_Some in H as [_ H]. eauto.
  - intros sid1 sid2 s1 s2 Hne H1 H2.
    apply lookup_delete_Some in H1 as [_ H1].
    apply lookup_delete_Some in H2 as [_ H2]. eauto.
  - intros sid' s H. apply lookup_delete_Some in H as [Hne H].
    destruct (Hcount _ _ H) as [b' [Hb' Hr]]. exists b'. split; [| exact Hr].
    rewrite lookup_insert_ne; [exact Hb' |]. apply (Hinj sid sid' sess s); auto.
  - intros r b'. rewrite lookup_insert. case_decide.
    + intros [= <-]. cbn [bump client_data]. eapply Hdata; eauto.
    + apply Hdata.
Qed.

Lemma bumped_open_orderly sid sess b g :
  orderly g -> sessions g !! sid = Some sess -> objects g !! bot sess = Some b ->
  exchange_count b + 1 < 4 ->
  orderly (bumped g (bot sess) b).
Proof.
  intros [Hlt [Hinj [Hcount Hdata]]] Hs Hb Hbelow. unfold bumped.
  split; [| split; [| split]]; cbn [sessions objects next_ref]; auto.
  - intros sid' s H. destruct (decide (sid' = sid)) as [-> | Hne].
    + rewrite Hs in H. inversion H. subst s. rewrite lookup_insert_eq.
      eexists. split; [reflexivity |]. cbn [bump exchange_count].
      destruct (Hcount _ _ Hs) as [b0 [Hb0 Hr]]. rewrite Hb in Hb0.
      inversion Hb0. subst b0. lia.
    + destruct (Hcount _ _ H) as [b' [Hb' Hr]]. exists b'. split; [| exact Hr].
      rewrite lookup_insert_ne; [exact Hb' |]. apply (Hinj sid sid' sess s); auto.
  - intros r b'. rewrite lookup_insert. case_decide.
    + intros [= <-]. cbn [bump client_data]. eapply Hdata; eauto.
    + apply Hdata.
Qed.

Lemma hook_process_orderly sid speech g :
  orderly g ->
  orderly (snd (run (TwilioWebhook.process model sid speech) g)).
Proof.
  intros Hord.
  destruct (hook_cases g sid speech (fun s => orderly_bots g Hord sid s))
    as [[_ ->] | [sess [b [Hs [Hb H]]]]]; [exact Hord |].
  cbv zeta in H.
  destruct H as [[_ ->] | [[_ ->] | [[closing [_ ->]] | [Hlt [reply [_ ->]]]]]];
    cbn [snd].
  - exact Hord.
  - now apply without_session_orderly.
  - now apply bumped_closed_orderly.
  - now apply (bumped_open_orderly sid).
Qed.

End HookCases.

Section HookReach.
Import TwilioWebhook.

Lemma hook_reachable_orderly g : hook_reachable g -> orderly g.
Proof.
  induction 1 as [| g now sid _ IH | g model sid speech _ IH].
  - repeat split; intros *; cbn [empty_globals sessions objects];
      rewrite ?lookup_empty; try discriminate.
  - rewrite hook_voice_globals. now apply hook_stored_orderly.
  - now apply hook_process_orderly.
Qed.

End HookReach.

Section HookTurns.
Import TwilioWebhook.
Variable model : Model.

Lemma hook_voice_runs now sid g :
  run (voice now sid) g = (Ok hook_greeting, hook_stored now sid g).
Proof.
  unfold voice, new_bot, store_session, deref, hook_stored. exec.
  cbn [objects sessions next_ref prompts].
  rewrite lookup_insert_eq. vm_compute. reflexivity.
Qed.

(** X13. [/voice] of [twilio_webhook.py] never raises: it answers with
    the greeting (175 percent on 2,100,000 dirhams), and the session it
    stores for the call holds a new bot with no exchange counted, also
    when the call already had a session; the other sessions and objects
    are untouched and no prompt goes to the model. *)
Theorem hook_voice_starts_over now sid g :
  let out := run (voice now sid) g in
  fst out = Ok hook_greeting
  /\ sessions (snd out) !! sid = Some {| bot := next_ref g; start_time := now |}
  /\ objects (snd out) !! next_ref g = Some (init sid)
  /\ exchange_count (init sid) = 0
  /\ (forall r, r <> next_ref g -> objects (snd out) !! r = objects g !! r)
  /\ (forall sid', sid' <> sid -> sessions (snd out) !! sid' = sessions g !! sid')
  /\ next_ref (snd out) = S (next_ref g)
  /\ prompts (snd out) = prompts g.
Proof.
  cbv zeta. rewrite hook_voice_runs. unfold hook_stored.
  cbn [fst snd sessions objects next_ref prompts].
  repeat split.
  - apply lookup_insert_eq.
  - apply lookup_insert_eq.
  - intros r Hr. now apply lookup_insert_ne.
  - intros sid' Hne. now apply lookup_insert_ne.
Qed.

(** X14. In every state the endpoints of [twilio_webhook.py] can reach,
    the bot of a live session exists, has counted between 0 and 3
    exchanges, has the constructor's client data, and is the bot of no
    other live session. *)
Theorem conversation_is_bounded g sid s :
  hook_reachable g -> sessions g !! sid = Some s ->
  exists b,
    objects g !! bot s = Some b
    /\ 0 <= exchange_count b <= 3
    /\ client_data b = client_data (init None)
    /\ (bot s < next_ref g)%nat
    /\ forall sid' s', sid' <> sid -> sessions g !! sid' = Some s' -> bot s' <> bot s.
Proof.
  intros Hr Hs. destruct (hook_reachable_orderly g Hr) as [Hlt [Hinj [Hcount Hdata]]].
  destruct (Hcount sid s Hs) as [b [Hb Hrange]].
  exists b. repeat split; try tauto; eauto.
Qed.

(** X15. In every reachable state [/process] of [twilio_webhook.py]
    returns a response that either asks for more speech or hangs up,
    never both and never neither; the session is kept exactly when it
    asks for more speech; the sessions and bots of the other calls are
    untouched, and no prompt goes to the model. *)
Theorem hook_response_matches_session g sid speech :
  hook_reachable g ->
  exists response g',
    run (TwilioWebhook.process model sid speech) g = (Ok response, g')
    /\ continuation response = negb (ends_call response)
    /\ (continuation response = true -> sessions g' = sessions g)
    /\ (ends_call response = true -> sessions g' !! sid = None)
    /\ (forall sid', sid' <> sid -> sessions g' !! sid' = sessions g !! sid')
    /\ (forall sid' s', sid' <> sid -> sessions g !! sid' = Some s' ->
          objects g' !! bot s' = objects g !! bot s')
    /\ next_ref g' = next_ref g
    /\ prompts g' = prompts g.
Proof.
  intros Hr. pose proof (hook_reachable_orderly g Hr) as Hord.
  destruct Hord as [Hlt [Hinj [Hcount Hdata]]].
  destruct (hook_cases model g sid speech
              (fun s => orderly_bots g (hook_reachable_orderly g Hr) sid s))
    as [[Hn ->] | [sess [b [Hs [Hb H]]]]].
  { do 2 eexists. split; [reflexivity |].
    repeat split; try reflexivity; try discriminate; auto. }
  cbv zeta in H.
  assert (Hother : forall sid' s', sid' <> sid -> sessions g !! sid' = Some s' ->
            <[bot sess := bump b]> (objects g) !! bot s' = objects g !! bot s').
  { intros sid' s' Hne Hs'. apply lookup_insert_ne.
    apply (Hinj sid sid' sess s'); auto. }
  destruct H as [[_ ->] | [[_ ->] | [[closing [Hin ->]] | [Hbelow [reply [_ ->]]]]]];
    do 2 eexists; (split; [reflexivity |]).
  - repeat split; try reflexivity; discriminate.
  - unfold without_session. cbn [sessions objects next_ref prompts].
    repeat split; try reflexivity; try discriminate.
    + intros _. apply lookup_delete_eq.
    + intros sid' Hne. now apply lookup_delete_ne.
  - unfold without_session, bumped. cbn [sessions objects next_ref prompts].
    assert (Hshape : continuation closing = false /\ ends_call closing = true).
    { cbn [In] in Hin. destruct Hin as [<- | [<- | [<- | [<- | []]]]];
        split; reflexivity. }
    destruct Hshape as [Hc He]. rewrite Hc, He.
    repeat split; try reflexivity; try discriminate; auto.
    + intros _. apply lookup_delete_eq.
    + intros sid' Hne. now apply lookup_delete_ne.
  - unfold bumped. cbn [sessions objects next_ref prompts].
    repeat split; try reflexivity; try discriminate; auto.
Qed.

(** X16. A blank utterance once the bot has counted an exchange ends the
    call: the webhook says the advisor will call back and hangs up, the
    session is deleted, no counter changes, and every later [/process]
    for the call answers "session expired". *)
Theorem silence_after_talk_ends_call g sid speech sess b :
  sessions g !! sid = Some sess ->
  objects g !! bot sess = Some b ->
  truthy (strip (heard_raw speech)) = false ->
  exchange_count b <> 0 ->
  let out := run (TwilioWebhook.process model sid speech) g in
  fst out = Ok hard_to_hear
  /\ sessions (snd out) = delete sid (sessions g)
  /\ objects (snd out) = objects g
  /\ forall model' speech',
       run (TwilioWebhook.process model' sid speech') (snd out)
       = (Ok call_back_expired, snd out).
Proof.
  intros Hs Hb Ht Hc. cbv zeta.
  rewrite (webhook_empty_later_turn model g sid speech sess b Hs Hb Ht Hc).
  cbn [fst snd]. repeat split.
  intros model' speech'. apply webhook_no_session.
  unfold without_session. cbn [sessions]. apply lookup_delete_eq.
Qed.

Lemma exit_phrases_text : forallb has_text exit_phrases = true.
Proof. reflexivity. Qed.

Lemma positive_phrases_text : forallb has_text positive_phrases = true.
Proof. reflexivity. Qed.

(** X17. The closing phrases of [twilio_webhook.py]: an utterance with
    an exit phrase is answered with the removal from the calling list,
    whatever else it has; one with a positive phrase and no exit phrase
    with the advisor follow-up.  Both hang up and delete the session,
    after the exchange was counted. *)
Theorem exit_phrase_comes_first g sid speech sess b :
  sessions g !! sid = Some sess ->
  objects g !! bot sess = Some b ->
  let user_input := heard_raw speech in
  let closed := without_session (bumped g (bot sess) b) sid in
  let out := run (TwilioWebhook.process model sid speech) g in
  ((exists phrase, In phrase exit_phrases /\ occurs_in phrase user_input) ->
   out = (Ok removed_from_list, closed))
  /\ ((exists phrase, In phrase positive_phrases /\ occurs_in phrase user_input) ->
      (forall phrase, In phrase exit_phrases -> ~ occurs_in phrase user_input) ->
      out = (Ok advisor_follow_up, closed)).
Proof.
  intros Hs Hb. cbv zeta.
  assert (Hblank : forall phrases,
            forallb has_text phrases = true ->
            (exists phrase, In phrase phrases /\ occurs_in phrase (heard_raw speech)) ->
            truthy (strip (heard_raw speech)) = true).
  { intros phrases Hall [phrase [Hin Hocc]].
    apply (occurs_in_not_blank phrase); [| exact Hocc].
    rewrite forallb_forall in Hall. now apply Hall. }
  split.
  - intros Hex.
    rewrite (webhook_bumped_turn model g sid speech sess b Hs Hb
               (Hblank _ exit_phrases_text Hex)).
    cbv zeta. apply any_in_iff in Hex. now rewrite Hex.
  - intros Hpos Hno.
    rewrite (webhook_bumped_turn model g sid speech sess b Hs Hb
               (Hblank _ positive_phrases_text Hpos)).
    cbv zeta. apply any_in_iff in Hpos. rewrite Hpos.
    destruct (any_in exit_phrases (heard_raw speech)) eqn:E; [| reflexivity].
    apply any_in_iff in E. destruct E as [phrase [Hin Hocc]].
    exfalso. exact (Hno phrase Hin Hocc).
Qed.

(** With the constructor's client data and at least one exchange counted,
    no reply of [get_quick_response] is spoken as the first refusal line. *)
Lemma quick_reply_is_not_busy_opener self user_input reply :
  client_data self = client_data (init None) ->
  1 <= exchange_count self ->
  get_quick_response self user_input = Ok reply ->
  clean_for_speech reply <> busy_opener.
Proof.
  intros Hcd Hec. unfold get_quick_response. rewrite Hcd.
  destruct (truediv _ _) as [q | e] eqn:Eq; [| discriminate].
  vm_compute in Eq. injection Eq as <-. cbv zeta.
  destruct (any_in _ user_input).
  { cbn [List.length]. change (Z.of_nat 3) with 3.
    match goal with
    | |- context [index [?a; ?b; ?c] (?z mod 3)] =>
        destruct (index_mod_3 a b c z) as [x [Hx Hin]]
    end.
    rewrite Hx. intros [= <-]. cbn [In] in Hin.
    destruct Hin as [<- | [<- | [<- | []]]]; vm_compute; discriminate. }
  destruct (any_in _ user_input).
  { destruct (2 <=? exchange_count self) eqn:E2.
    - intros H. vm_compute in H. injection H as <-. vm_compute. discriminate.
    - assert (E1 : exchange_count self = 1) by lia. rewrite E1.
      intros H. vm_compute in H. injection H as <-. vm_compute. discriminate. }
  destruct (any_in _ user_input); intros [= <-]; vm_compute; discriminate.
Qed.

(** X18. [get_quick_response] keeps "I understand you're busy. ..." as
    its first reply to a refusal and returns it for a bot that has
    counted no exchange; [/process] counts the exchange before it asks
    for a reply, so in no reachable state does a response say it. *)
Theorem busy_opener_is_never_spoken g sid speech response :
  hook_reachable g ->
  fst (run (TwilioWebhook.process model sid speech) g) = Ok response ->
  get_quick_response (init sid) "no" = Ok busy_opener
  /\ ~ In busy_opener (said response).
Proof.
  intros Hr Hout. split; [vm_compute; reflexivity |].
  pose proof (hook_reachable_orderly g Hr) as Hord.
  destruct (hook_cases model g sid speech (fun s => orderly_bots g Hord sid s))
    as [[_ E] | [sess [b [Hs [Hb H]]]]].
  { rewrite E in Hout. injection Hout as <-. vm_compute. intuition discriminate. }
  cbv zeta in H.
  destruct H as [[_ E] | [[_ E] | [[closing [Hin E]] | [Hbelow [reply [Hq E]]]]]];
    rewrite E in Hout; injection Hout as <-.
  - vm_compute. intuition discriminate.
  - vm_compute. intuition discriminate.
  - cbn [In] in Hin. destruct Hin as [<- | [<- | [<- | [<- | []]]]];
      vm_compute; intuition discriminate.
  - destruct Hord as [_ [_ [Hcount Hdata]]].
    destruct (Hcount sid sess Hs) as [b' [Hb' Hrange]].
    rewrite Hb in Hb'. injection Hb' as <-.
    assert (Hne : clean_for_speech reply <> busy_opener).
    { apply (quick_reply_is_not_busy_opener (bump b) (heard_raw speech)).
      - cbn [bump client_data]. now apply (Hdata (bot sess)).
      - cbn [bump exchange_count]. lia.
      - exact Hq. }
    cbn [said flat_map TwilioWebhook.listen map fst app In].
    intros [H | [H | []]]; [exact (Hne H) | discriminate H].
Qed.

End HookTurns.

(** ** The further properties at work *)

Section MainAtWork.
Import Voice2 Main PropertyRag.

Lemma call_started_has_bots : sessions_have_bots call_started.
Proof. apply (reachable_has_bots in_memory). apply reach_voice, reach_start. Qed.

Lemma two_calls_reachable : reachable in_memory two_calls.
Proof. apply reach_voice. apply reach_voice, reach_start. Qed.

Lemma first_call_found : _sessions two_calls !! test_call = Some started_session.
Proof. vm_compute. reflexivity. Qed.

(** A turn of the call [CA123TIMEOUT] whose generator is too slow: the
    response keeps listening. *)
Lemma response_matches_session_witness :
  exists response g',
    run (process in_memory slow_generator test_call test_speech) call_started
      = (Ok response, g')
    /\ continuation response = negb (ends_call response)
    /\ (continuation response = true -> g' = call_started)
    /\ (ends_call response = true ->
        get_session in_memory test_call g' = (Ok None, g')).
Proof.
  exact (response_matches_session in_memory slow_generator call_started
           test_call test_speech call_started_has_bots).
Defined.

(** The call [CA456] says yes and is closed, then is answered again: the
    call [CA123TIMEOUT] keeps its session and its bot. *)
Lemma calls_do_not_interfere_witness :
  let closed :=
    snd (run (process in_memory slow_generator "CA456" (Some "yes")) two_calls) in
  let again := snd (run (voice in_memory 1700000200 "CA456") two_calls) in
  (_sessions closed !! test_call = Some started_session
   /\ objects closed !! bot started_session = objects two_calls !! bot started_session)
  /\ (_sessions again !! test_call = Some started_session
      /\ objects again !! bot started_session = objects two_calls !! bot started_session).
Proof.
  destruct (calls_do_not_interfere in_memory two_calls test_call started_session
              two_calls_reachable first_call_found "CA456"
              ltac:(vm_compute; discriminate))
    as [Hturn Hvoice].
  destruct (Hturn slow_generator (Some "yes")) as [H1 [_ H2]].
  destruct (Hvoice 1700000200) as [H3 [_ H4]].
  split; split; assumption.
Defined.

(** "Tell me about ROI" with the lookup that has no API key. *)
Lemma shipped_collaborators_reply_witness :
  run (process in_memory (prompt_collaborators dummy_rag) test_call test_speech)
      call_started
  = (Ok [Say "Thanks for sharing. Could you tell me more about your preferences in Dubai? Based on Dubai market trends, properties have shown steady return on investment growth." "alice";
         listen "What are your thoughts?"],
     call_started).
Proof.
  exact (shipped_collaborators_reply in_memory dummy_rag call_started test_call
           test_speech started_session caller
           started_session_found started_bot_found eq_refl eq_refl eq_refl).
Defined.

(** The caller declines. *)
Lemma not_interested_is_taken_as_consent_witness :
  handle_intents "Sorry, NOT interested" = "strong_confirm"
  /\ fst (run (process in_memory slow_generator test_call
                 (Some "I am NOT interested")) call_started)
     = Ok confirm_closing.
Proof.
  destruct (not_interested_is_taken_as_consent in_memory slow_generator
              call_started test_call (Some "I am NOT interested")
              started_session caller started_session_found started_bot_found
              ltac:(exists "i am ", ""; reflexivity))
    as [Hclass Hrun].
  split.
  - apply Hclass. exists "sorry, ", "". reflexivity.
  - now rewrite Hrun.
Defined.

Lemma clean_text_for_tts_fixed_witness :
  clean_text_for_tts "Please say that again." = "Please say that again.".
Proof.
  apply (clean_text_for_tts_fixed ["Please"; "say"; "that"; "again."]).
  - reflexivity.
  - intros H. apply contains_iff in H. vm_compute in H. discriminate.
  - intros H. apply contains_iff in H. vm_compute in H. discriminate.
Defined.

End MainAtWork.

Section WebhookAtWork.
Import TwilioWebhook.

Lemma after_three_turns_reachable : hook_reachable after_three_turns.
Proof.
  unfold after_three_turns, webhook_turn, webhook_started.
  do 3 apply hook_process. apply hook_voice, hook_start.
Qed.

Lemma after_one_turn_session :
  sessions after_one_turn !! Some "CA123" = Some webhook_session.
Proof. vm_compute. reflexivity. Qed.

Lemma after_one_turn_bot :
  objects after_one_turn !! bot webhook_session = Some (bump (init (Some "CA123"))).
Proof. vm_compute. reflexivity. Qed.

Lemma webhook_started_reachable : hook_reachable webhook_started.
Proof. apply hook_voice, hook_start. Qed.

Lemma webhook_started_session :
  sessions webhook_started !! Some "CA123" = Some webhook_session.
Proof. vm_compute. reflexivity. Qed.

Lemma webhook_started_bot :
  objects webhook_started !! bot webhook_session = Some (init (Some "CA123")).
Proof. vm_compute. reflexivity. Qed.

Lemma clean_for_speech_leaves_other_text_witness :
  clean_for_speech "What do you think?" = "What do you think?".
Proof.
  apply clean_for_speech_leaves_other_text.
  intros old new Hin H. apply contains_iff in H.
  cbn [replacements In] in Hin.
  repeat (destruct Hin as [Hin | Hin];
          [injection Hin as <- <-; vm_compute in H; discriminate |]).
  exact Hin.
Defined.

(** The call [CA123] after three turns: its bot has counted three. *)
Lemma conversation_is_bounded_witness :
  exists b,
    objects after_three_turns !! bot webhook_session = Some b
    /\ 0 <= exchange_count b <= 3
    /\ client_data b = client_data (init None)
    /\ (bot webhook_session < next_ref after_three_turns)%nat
    /\ forall sid' s', sid' <> Some "CA123" ->
         sessions after_three_turns !! sid' = Some s' ->
         bot s' <> bot webhook_session.
Proof.
  exact (conversation_is_bounded after_three_turns (Some "CA123") webhook_session
           after_three_turns_reachable webhook_session_found).
Defined.

(** The fourth turn of the call [CA123]. *)
Lemma hook_response_matches_session_witness :
  exists response g',
    run (TwilioWebhook.process quiet_model (Some "CA123") (Some "Hmm"))
        after_three_turns = (Ok response, g')
    /\ continuation response = negb (ends_call response)
    /\ (ends_call response = true -> sessions g' !! Some "CA123" = None)
    /\ prompts g' = prompts after_three_turns.
Proof.
  destruct (hook_response_matches_session quiet_model after_three_turns
              (Some "CA123") (Some "Hmm") after_three_turns_reachable)
    as [response [g' [Hrun [Hshape [_ [Hgone [_ [_ [_ Hprompts]]]]]]]]].
  exists response, g'. repeat split; assumption.
Defined.

(** Silence on the second turn of the call [CA123]. *)
Lemma silence_after_talk_ends_call_witness :
  let out := run (TwilioWebhook.process quiet_model (Some "CA123") None)
               after_one_turn in
  fst out = Ok hard_to_hear
  /\ sessions (snd out) !! Some "CA123" = None
  /\ objects (snd out) = objects after_one_turn
  /\ run (TwilioWebhook.process quiet_model (Some "CA123") (Some "Hello?")) (snd out)
     = (Ok call_back_expired, snd out).
Proof.
  intros out.
  destruct (silence_after_talk_ends_call quiet_model after_one_turn
              (Some "CA123") None webhook_session (bump (init (Some "CA123")))
              after_one_turn_session after_one_turn_bot eq_refl
              ltac:(vm_compute; discriminate))
    as [Hr [Hs [Ho Hlater]]].
  split; [exact Hr |]. split; [| split; [exact Ho | apply Hlater]].
  fold out in Hs. rewrite Hs. apply lookup_delete_eq.
Defined.

(** An utterance with a positive and an exit phrase, and one with a
    positive phrase only. *)
Lemma exit_phrase_comes_first_witness :
  fst (run (TwilioWebhook.process quiet_model (Some "CA123")
              (Some "I am very interested but stop calling")) webhook_started)
    = Ok removed_from_list
  /\ fst (run (TwilioWebhook.process quiet_model (Some "CA123")
                 (Some "Yes, connect me")) webhook_started)
     = Ok advisor_follow_up.
Proof.
  split.
  - destruct (exit_phrase_comes_first quiet_model webhook_started (Some "CA123")
                (Some "I am very interested but stop calling")
                webhook_session (init (Some "CA123"))
                webhook_started_session webhook_started_bot) as [Hexit _].
    rewrite Hexit; [reflexivity |].
    exists "stop calling". split; [simpl; auto |].
    exists "i am very interested but ", "". reflexivity.
  - destruct (exit_phrase_comes_first quiet_model webhook_started (Some "CA123")
                (Some "Yes, connect me")
                webhook_session (init (Some "CA123"))
                webhook_started_session webhook_started_bot) as [_ Hpos].
    rewrite Hpos; [reflexivity | |].
    + exists "connect me". split; [simpl; auto |].
      exists "yes, ", "". reflexivity.
    + intros phrase Hin Hocc.
      assert (H : any_in exit_phrases (heard_raw (Some "Yes, connect me")) = true)
        by (apply any_in_iff; eauto).
      vm_compute in H. discriminate.
Defined.

(** A refusal on the first turn of the call [CA123] is answered with the
    second refusal line. *)
Lemma busy_opener_is_never_spoken_witness :
  let response :=
    [Say "No problem. But before I go - would you rather lock in your 2.1 million dirham profit now, or risk waiting through the summer slowdown? Quick question for you." "alice";
     TwilioWebhook.listen "What do you think?"] in
  fst (run (TwilioWebhook.process quiet_model (Some "CA123") (Some "No, I'm busy"))
         webhook_started) = Ok response
  /\ get_quick_response (init (Some "CA123")) "no" = Ok busy_opener
  /\ ~ In busy_opener (said response).
Proof.
  intros response.
  assert (Hrun : fst (run (TwilioWebhook.process quiet_model (Some "CA123")
                             (Some "No, I'm busy")) webhook_started)
                 = Ok response) by (vm_compute; reflexivity).
  split; [exact Hrun |].
  exact (busy_opener_is_never_spoken quiet_model webhook_started (Some "CA123")
           (Some "No, I'm busy") response webhook_started_reachable Hrun).
Defined.

End WebhookAtWork.
